(** * Gemini code-review script: a shallow embedding and its properties

    Source: [.github/scripts/gemini-code-review.py].

    Python strings are sequences of Unicode code points; they are modelled
    as lists of code points ([N]).  The effects of the script (subprocess,
    file system, HTTP, console) are modelled by an explicit [World] that
    answers each request, and by the trace of requests the script issues. *)

From Stdlib Require Import Ascii String DecimalString DecimalPos.
From Stdlib Require Import NArith ZArith Bool Lia List.
Import ListNotations.

(** ** Python strings *)

Definition char := N.
Definition str := list char.

(** Decoder for the UTF-8 bytes of a literal written in this file, so that
    the literals of the script (emoji included) can be written as they are in
    the source and still denote code points. *)
Fixpoint utf8_decode (bs : list N) : str :=
  match bs with
  | [] => []
  | b1 :: r1 =>
    if (b1 <? 128)%N then b1 :: utf8_decode r1
    else if (b1 <? 224)%N then
      match r1 with
      | b2 :: r2 => ((b1 - 192) * 64 + (b2 - 128))%N :: utf8_decode r2
      | [] => [b1]
      end
    else if (b1 <? 240)%N then
      match r1 with
      | b2 :: b3 :: r3 =>
        ((b1 - 224) * 4096 + (b2 - 128) * 64 + (b3 - 128))%N :: utf8_decode r3
      | _ => [b1]
      end
    else
      match r1 with
      | b2 :: b3 :: b4 :: r4 =>
        ((b1 - 240) * 262144 + (b2 - 128) * 4096 + (b3 - 128) * 64 + (b4 - 128))%N
          :: utf8_decode r4
      | _ => [b1]
      end
  end.

Definition py (s : string) : str :=
  utf8_decode (map N_of_ascii (list_ascii_of_string s)).
Arguments py s%_string : simpl never.

(** [str(n)] for an integer. *)
Definition str_of_int (z : Z) : str := py (NilZero.string_of_int (Z.to_int z)).

Definition str_eqb (a b : str) : bool :=
  if list_eq_dec N.eq_dec a b then true else false.

(** [s.startswith(p)] *)
Fixpoint startswith (s p : str) {struct p} : bool :=
  match p, s with
  | [], _ => true
  | _ :: _, [] => false
  | c :: p', d :: s' => (c =? d)%N && startswith s' p'
  end.

(** [needle in hay] for two strings *)
Fixpoint contains (needle hay : str) : bool :=
  startswith hay needle ||
  match hay with
  | [] => false
  | _ :: hay' => contains needle hay'
  end.

(** [s.endswith(suf)] *)
Definition endswith (s suf : str) : bool :=
  (length suf <=? length s)%nat &&
  str_eqb (skipn (length s - length suf) s) suf.

(** [s.endswith((suf1, suf2, ...))] *)
Definition endswith_any (s : str) (sufs : list str) : bool :=
  existsb (endswith s) sufs.

Definition NL : char := 10%N.

(** [s.split('\n')] *)
Fixpoint split_lines (s : str) : list str :=
  match s with
  | [] => [[]]
  | c :: r =>
    if (c =? NL)%N then [] :: split_lines r
    else match split_lines r with
         | [] => [[c]]
         | l :: ls => (c :: l) :: ls
         end
  end.

(** What the interpreter supplies and the script does not define: the
    Unicode tables behind [str.upper] and [str.strip] for the code points
    above ASCII, and the text [str(e)] of an exception. *)
Inductive exn : Type :=
| KeyError (key : str)
| KeyErrorInt (key : Z)
| IndexError
| TypeError
| AttributeError
| FileNotFoundError (path : str)
| EnvError (msg : str).

Record Runtime : Type := {
  unicode_upper : char -> str;
  unicode_isspace : char -> bool;
  exn_str : exn -> str
}.

Definition ascii_upper (c : char) : char :=
  if ((97 <=? c) && (c <=? 122))%N then (c - 32)%N else c.

Definition ascii_isspace (c : char) : bool :=
  (((9 <=? c) && (c <=? 13)) || ((28 <=? c) && (c <=? 32)))%N.

Section Strings.
Variable rt : Runtime.

Definition upper_char (c : char) : str :=
  if (c <? 128)%N then [ascii_upper c] else unicode_upper rt c.

(** [s.upper()] *)
Definition upper (s : str) : str := flat_map upper_char s.

Definition isspace (c : char) : bool :=
  if (c <? 128)%N then ascii_isspace c else unicode_isspace rt c.

Fixpoint lstrip (s : str) : str :=
  match s with
  | [] => []
  | c :: r => if isspace c then lstrip r else s
  end.

(** [s.strip()] *)
Definition strip (s : str) : str := rev (lstrip (rev (lstrip s))).
End Strings.

(** ** Outcomes, values and the world *)

(** A Python computation returns a value or raises. *)
Inductive outcome (A : Type) : Type :=
| Ret (a : A)
| Raise (e : exn).
Arguments Ret {A} a.
Arguments Raise {A} e.

Definition bind {A B : Type} (m : outcome A) (k : A -> outcome B) : outcome B :=
  match m with
  | Ret a => k a
  | Raise e => Raise e
  end.

Notation "x <- m ;; k" := (bind m (fun x => k))
  (at level 61, m at next level, right associativity).

(** What [response.json()] can return. A number is kept as its literal: the
    script never computes with one. *)
#[local] Set Warnings "-register-all".
Inductive pyval : Type :=
| PNone
| PBool (b : bool)
| PNum (literal : str)
| PStr (s : str)
| PList (items : list pyval)
| PDict (entries : list (str * pyval)).

Fixpoint dict_get (k : str) (d : list (str * pyval)) : option pyval :=
  match d with
  | [] => None
  | (k', v) :: d' => if str_eqb k' k then Some v else dict_get k d'
  end.

Definition is_the_str (k : str) (v : pyval) : bool :=
  match v with
  | PStr s => str_eqb s k
  | _ => false
  end.

(** [k in v] for a string [k] *)
Definition py_in (k : str) (v : pyval) : outcome bool :=
  match v with
  | PDict d => Ret (match dict_get k d with Some _ => true | None => false end)
  | PList xs => Ret (existsb (is_the_str k) xs)
  | PStr s => Ret (contains k s)
  | _ => Raise TypeError
  end.

(** [v[k]] for a string [k] *)
Definition py_getitem (v : pyval) (k : str) : outcome pyval :=
  match v with
  | PDict d =>
    match dict_get k d with
    | Some x => Ret x
    | None => Raise (KeyError k)
    end
  | _ => Raise TypeError
  end.

(** [v[0]]; the keys of a parsed JSON object are strings, never [0] *)
Definition py_getitem0 (v : pyval) : outcome pyval :=
  match v with
  | PList (x :: _) => Ret x
  | PList [] => Raise IndexError
  | PStr (c :: _) => Ret (PStr [c])
  | PStr [] => Raise IndexError
  | PDict _ => Raise (KeyErrorInt 0)
  | _ => Raise TypeError
  end.

(** [len(v)] *)
Definition py_len (v : pyval) : outcome nat :=
  match v with
  | PList xs => Ret (length xs)
  | PStr s => Ret (length s)
  | PDict d => Ret (length d)
  | _ => Raise TypeError
  end.

(** The result of [subprocess.run(..., capture_output=True, text=True)] *)
Record CompletedProcess : Type := {
  returncode : Z;
  stdout : str;
  stderr : str
}.

(** The result of [requests.post] *)
Record Response : Type := {
  status_code : Z;
  text : str;
  json : outcome pyval
}.

(** The environment of one run. [requests_post n url prompt] answers the
    [n]-th POST of the run (counting from 0). *)
Record World : Type := {
  getenv_api_key : option str;
  git_diff : outcome CompletedProcess;
  path_exists : str -> bool;
  open_read : str -> outcome str;
  requests_post : nat -> str -> str -> outcome Response;
  output_dir_exists : bool
}.

(** The requests the script issues, in order. [WriteFile p data] is the
    statement [with open(p, "w") as f: f.write(data)]. *)
Inductive event : Type :=
| Print (line : str)
| RunGitDiff
| PathExists (p : str)
| ReadFile (p : str)
| HttpPost (url : str) (prompt : str)
| MkDirs (p : str)
| WriteFile (p : str) (data : str).

Definition trace := list event.

(** How a run ends: [return] from [main], [sys.exit(code)], or an exception
    nobody catches. *)
Inductive final : Type :=
| Done
| Exit (code : Z)
| Crash (e : exn).

(** The dictionary built by [analyze_file_with_gemini]; its three keys are
    always present. *)
Record ReviewResult : Type := {
  file : str;
  analysis : pyval;
  severity : str
}.

(** ** The script *)

Definition GEMINI_API_URL : str :=
  py "https://generativelanguage.googleapis.com/v1beta/models/gemini-pro:generateContent".

Definition CODE_EXTENSIONS : list str :=
  [py ".ts"; py ".tsx"; py ".js"; py ".jsx"; py ".py"; py ".java";
   py ".cpp"; py ".c"; py ".h"; py ".hpp"].

Definition OUTPUT_DIR : str := py ".github/scripts".
Definition OUTPUT_PATH : str := py ".github/scripts/review-output.md".

Definition NO_FILES_DOCUMENT : str :=
  py "## 🤖 AI Code Review Results" ++ [NL; NL] ++
  py "ℹ️ **No code files were changed in this pull request.**" ++ [NL; NL] ++
  py "The AI code review found no files to analyze.".

Definition nonempty (s : str) : bool :=
  match s with
  | [] => false
  | _ :: _ => true
  end.

Section Script.
Variable rt : Runtime.

(** [[f.strip() for f in out.split('\n') if f.strip()]] *)
Definition diff_paths (out : str) : list str :=
  map (strip rt) (filter (fun f => nonempty (strip rt f)) (split_lines out)).

Definition is_code_file (f : str) : bool := endswith_any f CODE_EXTENSIONS.

(** The loop that fills [code_files], by appending. *)
Fixpoint code_files_loop (code_files files : list str) : list str :=
  match files with
  | [] => code_files
  | f :: rest =>
    code_files_loop (if is_code_file f then code_files ++ [f] else code_files) rest
  end.

Definition get_changed_files (w : World) : trace * list str :=
  match git_diff w with
  | Ret result =>
    if (returncode result =? 0)%Z then
      ([RunGitDiff], code_files_loop [] (diff_paths (stdout result)))
    else
      ([RunGitDiff;
        Print (py "Error getting changed files: " ++ stderr result)], [])
  | Raise e =>
    ([RunGitDiff; Print (py "Error in get_changed_files: " ++ exn_str rt e)], [])
  end.

Definition read_file_content (w : World) (file_path : str) : trace * str :=
  match open_read w file_path with
  | Ret content => ([ReadFile file_path], content)
  | Raise e =>
    ([ReadFile file_path;
      Print (py "Error reading " ++ file_path ++ py ": " ++ exn_str rt e)], [])
  end.

(** The body of the [try] in [call_gemini_api], once the response is
    there. *)
Definition read_response (response : Response) : outcome pyval :=
  if (status_code response =? 200)%Z then
    result <- json response ;;
    has <- py_in (py "candidates") result ;;
    nonzero <- (if has : bool then
                  cands <- py_getitem result (py "candidates") ;;
                  n <- py_len cands ;;
                  Ret (0 <? n)%nat
                else Ret false) ;;
    if nonzero : bool then
      cands <- py_getitem result (py "candidates") ;;
      cand <- py_getitem0 cands ;;
      content <- py_getitem cand (py "content") ;;
      parts <- py_getitem content (py "parts") ;;
      part <- py_getitem0 parts ;;
      py_getitem part (py "text")
    else
      Ret (PStr (py "No response generated from Gemini API"))
  else
    Ret (PStr (py "API Error: " ++ str_of_int (status_code response) ++
               py " - " ++ text response)).

Definition request_url (api_key : str) : str :=
  GEMINI_API_URL ++ py "?key=" ++ api_key.

(** [n] is the number of POSTs made before this one. *)
Definition call_gemini_api (w : World) (n : nat) (prompt api_key : str)
  : trace * outcome pyval :=
  let body := response <- requests_post w n (request_url api_key) prompt ;;
              read_response response in
  ([HttpPost (request_url api_key) prompt],
   match body with
   | Ret v => Ret v
   | Raise e => Ret (PStr (py "Error calling Gemini API: " ++ exn_str rt e))
   end).

Definition PROMPT_HEAD : str :=
  [NL] ++
  py "You are an expert code reviewer. Analyze the following code file and provide constructive feedback." ++ [NL] ++
  [NL] ++
  py "File: ".

Definition PROMPT_MID : str :=
  [NL] ++ py "Content:" ++ [NL].

Definition TRUNCATION_MARKER : str := py "... (truncated if longer)".

Definition PROMPT_TAIL : str :=
  TRUNCATION_MARKER ++ [NL] ++
  [NL] ++
  py "Please provide:" ++ [NL] ++
  py "1. **Overall Assessment**: Brief summary of code quality" ++ [NL] ++
  py "2. **Strengths**: What the code does well" ++ [NL] ++
  py "3. **Issues**: Specific problems or improvements needed" ++ [NL] ++
  py "4. **Security Concerns**: Any security vulnerabilities" ++ [NL] ++
  py "5. **Best Practices**: Suggestions for following coding best practices" ++ [NL] ++
  py "6. **Severity**: Rate as LOW/MEDIUM/HIGH/CRITICAL" ++ [NL] ++
  [NL] ++
  py "Format your response in clear sections with emojis for readability." ++ [NL] ++
  py "Be specific and actionable in your feedback." ++ [NL].

(** The f-string of [analyze_file_with_gemini]; [content[:4000]] is
    [firstn 4000 content]. *)
Definition build_prompt (file_path content : str) : str :=
  PROMPT_HEAD ++ file_path ++ PROMPT_MID ++ firstn 4000 content ++ PROMPT_TAIL.

Definition analyze_file_with_gemini (w : World) (n : nat)
           (file_path content api_key : str) : trace * outcome ReviewResult :=
  let prompt := build_prompt file_path content in
  let '(t, r) := call_gemini_api w n prompt api_key in
  (t, analysis <- r ;;
      Ret {| file := file_path; analysis := analysis; severity := py "MEDIUM" |}).

(** [a.get("analysis", "").upper()]: only a string has [upper]. *)
Definition analysis_upper (a : ReviewResult) : outcome str :=
  match analysis a with
  | PStr s => Ret (upper rt s)
  | _ => Raise AttributeError
  end.

Definition mentions_high (u : str) : bool :=
  contains (py "HIGH") u || contains (py "CRITICAL") u.

(** [sum(1 for a in analyses if "HIGH" in ... or "CRITICAL" in ...)] *)
Fixpoint count_high_priority (analyses : list ReviewResult) : outcome nat :=
  match analyses with
  | [] => Ret 0
  | a :: rest =>
    u <- analysis_upper a ;;
    n <- count_high_priority rest ;;
    Ret ((if mentions_high u then 1 else 0) + n)
  end.

Definition summary_header (total_files high_priority : nat) : str :=
  py "## 📋 Code Review Summary" ++ [NL] ++
  [NL] ++
  py "**Files Analyzed**: " ++ str_of_int (Z.of_nat total_files) ++ [NL] ++
  py "**High Priority Issues**: " ++ str_of_int (Z.of_nat high_priority) ++ [NL] ++
  [NL] ++
  py "### 🔍 Analysis Overview" ++ [NL] ++
  [NL].

Definition severity_icon (analysis_text : str) : str :=
  if mentions_high (upper rt analysis_text) then py "🔴"
  else if contains (py "MEDIUM") (upper rt analysis_text) then py "🟡"
  else py "🟢".

(** [for line in lines: if line.strip(): summary += f"- {line.strip()}\n"] *)
Fixpoint bullets_loop (summary : str) (lines : list str) : str :=
  match lines with
  | [] => summary
  | line :: rest =>
    bullets_loop
      (if nonempty (strip rt line)
       then summary ++ py "- " ++ strip rt line ++ [NL]
       else summary)
      rest
  end.

(** One turn of the per-file loop of [generate_overall_summary], for an
    analysis that is a string. *)
Definition summary_step (summary file_name analysis_text : str) : str :=
  let summary1 :=
    summary ++ py "**" ++ severity_icon analysis_text ++ py " " ++
    file_name ++ py "**" ++ [NL] in
  let lines := firstn 3 (split_lines analysis_text) in
  bullets_loop summary1 lines ++ [NL].

Fixpoint summary_loop (summary : str) (analyses : list ReviewResult)
  : outcome str :=
  match analyses with
  | [] => Ret summary
  | a :: rest =>
    match analysis a with
    | PStr analysis_text =>
      summary_loop (summary_step summary (file a) analysis_text) rest
    | _ => Raise AttributeError
    end
  end.

Definition generate_overall_summary (analyses : list ReviewResult)
  : outcome str :=
  let total_files := length analyses in
  high_priority <- count_high_priority analyses ;;
  summary_loop (summary_header total_files high_priority) analyses.

(** [for file_path in changed_files: ...] of [main]; [n] POSTs were made
    before, [analyses] is the list filled so far. *)
Fixpoint analyze_loop (w : World) (api_key : str) (n : nat)
         (analyses : list ReviewResult) (changed_files : list str)
  : trace * outcome (list ReviewResult) :=
  match changed_files with
  | [] => ([], Ret analyses)
  | file_path :: rest =>
    if path_exists w file_path then
      let '(t_read, content) := read_file_content w file_path in
      let t_here :=
        [PathExists file_path;
         Print (py "🔍 Analyzing " ++ file_path ++ py "...")] ++ t_read in
      if nonempty content then
        let '(t_call, r) :=
          analyze_file_with_gemini w n file_path content api_key in
        match r with
        | Ret a =>
          let '(t_rest, out) :=
            analyze_loop w api_key (S n) (analyses ++ [a]) rest in
          (t_here ++ t_call ++ t_rest, out)
        | Raise e => (t_here ++ t_call, Raise e)
        end
      else
        let '(t_rest, out) := analyze_loop w api_key n analyses rest in
        (t_here ++
         [Print (py "⚠️ Could not read content of " ++ file_path)] ++ t_rest,
         out)
    else
      let '(t_rest, out) := analyze_loop w api_key n analyses rest in
      ([PathExists file_path;
        Print (py "⚠️ File " ++ file_path ++ py " not found")] ++ t_rest,
       out)
  end.

Definition SEPARATOR : str := py "---" ++ [NL; NL].

(** The section of one file in the report *)
Definition file_section (file_name analysis_text : str) : str :=
  py "## 📄 " ++ file_name ++ [NL; NL] ++
  analysis_text ++
  [NL; NL] ++ SEPARATOR.

(** [for analysis in analyses: review_output += ...]; only a string can
    be added to a string. *)
Fixpoint sections_loop (review_output : str) (analyses : list ReviewResult)
  : outcome str :=
  match analyses with
  | [] => Ret review_output
  | a :: rest =>
    match analysis a with
    | PStr analysis_text =>
      sections_loop (review_output ++ file_section (file a) analysis_text) rest
    | _ => Raise TypeError
    end
  end.

Definition REPORT_FOOTER : str :=
  py "*This review was generated by Google Gemini AI using advanced code analysis.*".

Definition report_title (analyzed : nat) : str :=
  py "## 🤖 AI Code Review Results (Gemini)" ++ [NL; NL] ++
  py "**Analyzed " ++ str_of_int (Z.of_nat analyzed) ++ py " files**" ++ [NL; NL].

(** The part of [main] that assembles [review_output] *)
Definition build_review (analyses : list ReviewResult) : outcome str :=
  let review_output := report_title (length analyses) in
  review_output <-
    match analyses with
    | [] => Ret review_output
    | _ :: _ =>
      summary <- generate_overall_summary analyses ;;
      sections_loop (review_output ++ summary ++ SEPARATOR) analyses
    end ;;
  Ret (review_output ++ REPORT_FOOTER).

(** One run: the requests issued, how the run ended, and what the run left
    in the output file ([None]: the run wrote nothing). *)
Record Run : Type := {
  run_trace : trace;
  run_final : final;
  run_output : option str
}.

Definition key_of (w : World) : option str :=
  match getenv_api_key w with
  | Some (c :: k) => Some (c :: k)
  | _ => None
  end.

Definition main (w : World) : Run :=
  match key_of w with
  | None =>
    {| run_trace := [Print (py "❌ GEMINI_API_KEY environment variable not set")];
       run_final := Exit 1;
       run_output := None |}
  | Some api_key =>
    let t_start := [Print (py "🤖 Starting AI Code Review with Gemini...")] in
    let '(t_diff, changed_files) := get_changed_files w in
    match changed_files with
    | [] =>
      let t := t_start ++ t_diff ++
               [Print (py "ℹ️ No code files changed in this PR");
                WriteFile OUTPUT_PATH NO_FILES_DOCUMENT] in
      if output_dir_exists w then
        {| run_trace := t; run_final := Done;
           run_output := Some NO_FILES_DOCUMENT |}
      else
        {| run_trace := t; run_final := Crash (FileNotFoundError OUTPUT_PATH);
           run_output := None |}
    | _ :: _ =>
      let t_found :=
        Print (py "📁 Found " ++ str_of_int (Z.of_nat (length changed_files)) ++
               py " changed files:")
        :: map (fun f => Print (py "  - " ++ f)) changed_files in
      let '(t_loop, r) := analyze_loop w api_key 0 [] changed_files in
      let t := t_start ++ t_diff ++ t_found ++ t_loop in
      match analyses <- r ;; build_review analyses with
      | Raise e => {| run_trace := t; run_final := Crash e; run_output := None |}
      | Ret review_output =>
        {| run_trace :=
             t ++ [MkDirs OUTPUT_DIR;
                   WriteFile OUTPUT_PATH review_output;
                   Print (py "✅ AI Code Review completed!");
                   Print (py "📝 Review saved to .github/scripts/review-output.md")];
           run_final := Done;
           run_output := Some review_output |}
      end
    end
  end.
End Script.

(** ** Sample runtime and worlds

    A runtime whose tables leave the code points above ASCII alone, and
    small worlds on which the statements below are exercised. *)

Definition plain_runtime : Runtime := {|
  unicode_upper := fun c => [c];
  unicode_isspace := fun c => (c =? 160)%N;
  exn_str := fun e =>
    match e with
    | KeyError k => py "'" ++ k ++ py "'"
    | KeyErrorInt k => str_of_int k
    | IndexError => py "list index out of range"
    | TypeError => py "TypeError"
    | AttributeError => py "AttributeError"
    | FileNotFoundError p => py "No such file or directory: " ++ p
    | EnvError msg => msg
    end
|}.

(** What [git diff --name-only] prints for a list of paths: one per line. *)
Definition unlines (ls : list str) : str :=
  flat_map (fun l => l ++ [NL]) ls.

(** A path that the line splitting and stripping of [get_changed_files]
    leave as it is. *)
Definition clean_path (rt : Runtime) (p : str) : Prop :=
  p <> [] /\ ~ In NL p /\ strip rt p = p.

Definition world_two_code_files : World := {|
  getenv_api_key := Some (py "secret");
  git_diff := Ret {| returncode := 0;
                     stdout := unlines [py "src/app.ts"; py "README.md";
                                        py "tools/run.py"; py "src/app.ts"];
                     stderr := [] |};
  path_exists := fun _ => true;
  open_read := fun _ => Ret (py "print(1)");
  requests_post := fun _ _ _ =>
    Ret {| status_code := 500; text := py "oops"; json := Raise TypeError |};
  output_dir_exists := false
|}.

(** The nested text of a candidate, as the API documents it:
    [{"content": {"parts": [{"text": t}, ...]}}]. *)
Definition candidate_has_text (cand : pyval) (t : str) : Prop :=
  exists dc dcontent dpart more_parts,
    cand = PDict dc /\
    dict_get (py "content") dc = Some (PDict dcontent) /\
    dict_get (py "parts") dcontent = Some (PList (PDict dpart :: more_parts)) /\
    dict_get (py "text") dpart = Some (PStr t).

Definition candidate_with_text (t : str) : pyval :=
  PDict [(py "content",
          PDict [(py "parts", PList [PDict [(py "text", PStr t)]])])].

(** A world whose endpoint answers 200 with the given candidates. *)
Definition world_answering (candidates : list pyval) : World := {|
  getenv_api_key := Some (py "secret");
  git_diff := Ret {| returncode := 0; stdout := unlines [py "a.py"]; stderr := [] |};
  path_exists := fun _ => true;
  open_read := fun _ => Ret (py "print(1)");
  requests_post := fun _ _ _ =>
    Ret {| status_code := 200; text := [];
           json := Ret (PDict [(py "candidates", PList candidates)]) |};
  output_dir_exists := true
|}.

(** ** Vocabulary of the statements *)

(** The text of a result whose analysis is a string. *)
Definition analysis_text (a : ReviewResult) : str :=
  match analysis a with
  | PStr s => s
  | _ => []
  end.

Definition is_text (a : ReviewResult) : Prop :=
  exists s, analysis a = PStr s.

Definition text_result (f t : str) : ReviewResult :=
  {| file := f; analysis := PStr t; severity := py "MEDIUM" |}.

Section Vocabulary.
Variable rt : Runtime.

(** [text] contains the keyword [kw] once put in upper case. *)
Definition mentions (kw text : str) : Prop :=
  exists pre post, upper rt text = pre ++ kw ++ post.

Definition is_high_priority (a : ReviewResult) : bool :=
  mentions_high (upper rt (analysis_text a)).

Definition nonblank (line : str) : bool := nonempty (strip rt line).

Definition bullet (line : str) : str := py "- " ++ strip rt line ++ [NL].

Definition icon_line (a : ReviewResult) : str :=
  py "**" ++ severity_icon rt (analysis_text a) ++ py " " ++ file a ++
  py "**" ++ [NL].

(** The block of one file in the summary: the icon line, a bullet for each
    non-blank line among the first three lines of the text, and an empty
    line. *)
Definition summary_block (a : ReviewResult) : str :=
  icon_line a ++
  flat_map bullet (filter nonblank (firstn 3 (split_lines (analysis_text a)))) ++
  [NL].

(** As the specification words it: the first three non-blank lines of the
    text. *)
Definition spec_first_three_nonblank (analysis_text : str) : list str :=
  firstn 3 (filter nonblank (split_lines analysis_text)).

Definition spec_summary_block (a : ReviewResult) : str :=
  icon_line a ++
  flat_map bullet (spec_first_three_nonblank (analysis_text a)) ++
  [NL].
End Vocabulary.

Definition review_with_blank_second_line : ReviewResult :=
  text_result (py "a.py")
    (py "## Review" ++ [NL; NL] ++ py "Looks fine." ++ [NL] ++ py "No issues.").


(** The POSTs of a trace, in order. *)
Definition posts (t : trace) : list (str * str) :=
  flat_map (fun e => match e with
                     | HttpPost url prompt => [(url, prompt)]
                     | _ => []
                     end) t.

(** Whatever the endpoint answers, the value the script draws from the
    answer, if any, is a string. *)
Definition answers_are_text (w : World) : Prop :=
  forall n url prompt response v,
    requests_post w n url prompt = Ret response ->
    read_response response = Ret v ->
    exists s, v = PStr s.

Section RunVocabulary.
Variable rt : Runtime.

(** A changed file is analysed when it exists and its content, as read,
    is not empty. *)
Definition analysed (w : World) (f : str) : bool :=
  path_exists w f && nonempty (snd (read_file_content rt w f)).

Definition prompt_for (w : World) (f : str) : str :=
  build_prompt f (snd (read_file_content rt w f)).

(** The value that [call_gemini_api] returns. *)
Definition api_answer (w : World) (n : nat) (prompt api_key : str) : pyval :=
  match snd (call_gemini_api rt w n prompt api_key) with
  | Ret v => v
  | Raise _ => PNone
  end.

Definition result_for (w : World) (api_key : str) (n : nat) (f : str)
  : ReviewResult :=
  {| file := f;
     analysis := api_answer w n (prompt_for w f) api_key;
     severity := py "MEDIUM" |}.

(** The results of the loop of [main] over [files], [n] POSTs having been
    made before. *)
Fixpoint loop_results (w : World) (api_key : str) (n : nat) (files : list str)
  : list ReviewResult :=
  match files with
  | [] => []
  | f :: rest =>
    if analysed w f
    then result_for w api_key n f :: loop_results w api_key (S n) rest
    else loop_results w api_key n rest
  end.

(** The report for results that are texts. *)
Definition report_of (analyses : list ReviewResult) : str :=
  report_title (length analyses) ++
  match analyses with
  | [] => []
  | _ :: _ =>
    summary_header (length analyses)
                   (length (filter (is_high_priority rt) analyses)) ++
    flat_map (summary_block rt) analyses ++
    SEPARATOR ++
    flat_map (fun a => file_section (file a) (analysis_text a)) analyses
  end ++
  REPORT_FOOTER.
End RunVocabulary.

(** A run from a directory without [.github/scripts], on a commit that
    changed no code file. *)
Definition world_no_code_file_no_dir : World := {|
  getenv_api_key := Some (py "secret");
  git_diff := Ret {| returncode := 0; stdout := unlines [py "README.md"];
                     stderr := [] |};
  path_exists := fun _ => true;
  open_read := fun _ => Ret (py "# Readme");
  requests_post := fun _ _ _ => Raise (EnvError (py "unreachable"));
  output_dir_exists := false
|}.

(** The same commit, run from the root of the repository. *)
Definition world_no_code_file : World := {|
  getenv_api_key := Some (py "secret");
  git_diff := Ret {| returncode := 0; stdout := unlines [py "README.md"];
                     stderr := [] |};
  path_exists := fun _ => true;
  open_read := fun _ => Ret (py "# Readme");
  requests_post := fun _ _ _ => Raise (EnvError (py "unreachable"));
  output_dir_exists := true
|}.

(** Two changed code files; the second is empty on disk. *)
Definition world_with_empty_file : World := {|
  getenv_api_key := Some (py "secret");
  git_diff := Ret {| returncode := 0;
                     stdout := unlines [py "a.py"; py "empty.py"];
                     stderr := [] |};
  path_exists := fun _ => true;
  open_read := fun p => if str_eqb p (py "empty.py") then Ret [] else Ret (py "x = 1");
  requests_post := fun _ _ _ =>
    Ret {| status_code := 200; text := [];
           json := Ret (PDict [(py "candidates",
                                PList [candidate_with_text (py "Severity: LOW")])]) |};
  output_dir_exists := true
|}.

(** The same result with another severity label. *)
Definition with_severity (s : str) (a : ReviewResult) : ReviewResult :=
  {| file := file a; analysis := analysis a; severity := s |}.

(** ** Vocabulary of the further properties *)

Definition is_print (e : event) : bool :=
  match e with
  | Print _ => true
  | _ => false
  end.

(** The requests of a trace that reach beyond the console. *)
Definition io (t : trace) : trace := filter (fun e => negb (is_print e)) t.

(** What the loop of [main] asks of the outside world for one changed file:
    the path test, then the read if the path exists, then the POST if the
    content read is not empty. *)
Definition file_io (rt : Runtime) (w : World) (api_key f : str) : trace :=
  if path_exists w f then
    PathExists f :: ReadFile f ::
    (if nonempty (snd (read_file_content rt w f))
     then [HttpPost (request_url api_key) (prompt_for rt w f)]
     else [])
  else [PathExists f].

(** The diff command did not give a list of files. *)
Definition diff_failed (w : World) : Prop :=
  match git_diff w with
  | Ret result => returncode result <> 0%Z
  | Raise _ => True
  end.

Definition world_without_key : World := {|
  getenv_api_key := None;
  git_diff := Ret {| returncode := 0; stdout := unlines [py "a.py"]; stderr := [] |};
  path_exists := fun _ => true;
  open_read := fun _ => Ret (py "x = 1");
  requests_post := fun _ _ _ => Raise (EnvError (py "unreachable"));
  output_dir_exists := true
|}.

(** Not a git repository: the diff command exits with 128. *)
Definition world_git_fails : World := {|
  getenv_api_key := Some (py "secret");
  git_diff := Ret {| returncode := 128; stdout := [];
                     stderr := py "fatal: not a git repository" |};
  path_exists := fun _ => true;
  open_read := fun _ => Ret (py "x = 1");
  requests_post := fun _ _ _ => Raise (EnvError (py "unreachable"));
  output_dir_exists := true
|}.

(** Three changed code files: the first was deleted by the commit, the
    second is empty, the third is answered with one candidate. *)
Definition world_three_files : World := {|
  getenv_api_key := Some (py "secret");
  git_diff := Ret {| returncode := 0;
                     stdout := unlines [py "gone.py"; py "empty.py"; py "a.py"];
                     stderr := [] |};
  path_exists := fun p => negb (str_eqb p (py "gone.py"));
  open_read := fun p => if str_eqb p (py "empty.py") then Ret [] else Ret (py "x = 1");
  requests_post := fun _ _ _ =>
    Ret {| status_code := 200; text := [];
           json := Ret (PDict [(py "candidates",
                                PList [candidate_with_text (py "Severity: LOW")])]) |};
  output_dir_exists := false
|}.



(** The only changed code file was deleted by the commit. *)
Definition world_all_missing : World := {|
  getenv_api_key := Some (py "secret");
  git_diff := Ret {| returncode := 0; stdout := unlines [py "gone.py"];
                     stderr := [] |};
  path_exists := fun _ => false;
  open_read := fun _ => Raise (FileNotFoundError (py "gone.py"));
  requests_post := fun _ _ _ => Raise (EnvError (py "unreachable"));
  output_dir_exists := true
|}.

(** The endpoint cannot be reached. *)
Definition world_network_down : World := {|
  getenv_api_key := Some (py "secret");
  git_diff := Ret {| returncode := 0; stdout := unlines [py "a.py"];
                     stderr := [] |};
  path_exists := fun _ => true;
  open_read := fun _ => Ret (py "x = 1");
  requests_post := fun _ _ _ => Raise (EnvError (py "Connection refused"));
  output_dir_exists := true
|}.

(** ** Decimal numerals

    Reading a numeral back: [decimal_value] is the number that a string of
    decimal digits denotes. *)







(** The exit status of the interpreter: 0 when [main] returns, the code
    given to [sys.exit], 1 after an exception that nobody catches. *)
Definition exit_status (f : final) : Z :=
  match f with
  | Done => 0
  | Exit code => code
  | Crash _ => 1
  end.

(** The nested value of a candidate, key by key, whatever other keys the
    objects hold: [cand["content"]["parts"][0]["text"]] is [v]. *)
Definition candidate_has_value (cand : pyval) (v : pyval) : Prop :=
  exists dc dcontent dpart more_parts,
    cand = PDict dc /\
    dict_get (py "content") dc = Some (PDict dcontent) /\
    dict_get (py "parts") dcontent = Some (PList (PDict dpart :: more_parts)) /\
    dict_get (py "text") dpart = Some v.

(** A candidate as the service sends it, with its other fields, whose text
    is the number 5. *)
Definition full_candidate_with_number : pyval :=
  PDict [(py "content",
          PDict [(py "parts", PList [PDict [(py "text", PNum (py "5"))]]);
                 (py "role", PStr (py "model"))]);
         (py "finishReason", PStr (py "STOP"));
         (py "index", PNum (py "0"))].

Definition world_full_candidate_with_number : World := {|
  getenv_api_key := Some (py "secret");
  git_diff := Ret {| returncode := 0; stdout := unlines [py "a.py"];
                     stderr := [] |};
  path_exists := fun _ => true;
  open_read := fun _ => Ret (py "x = 1");
  requests_post := fun _ _ _ =>
    Ret {| status_code := 200; text := [];
           json := Ret (PDict [(py "candidates",
                                PList [full_candidate_with_number]);
                               (py "usageMetadata", PDict [])]) |};
  output_dir_exists := true
|}.

(** ** Strings: the boolean tests against their meaning *)

Example py_high : py "HIGH" = [72; 73; 71; 72]%N.
Proof. reflexivity. Qed.

Example py_icons :
  py "🔴🟡🟢" = [128308; 128993; 128994]%N.
Proof. reflexivity. Qed.

Example str_of_int_500 : str_of_int 500 = py "500".
Proof. reflexivity. Qed.

Lemma str_eqb_eq (a b : str) : str_eqb a b = true <-> a = b.
Proof.
  unfold str_eqb. destruct (list_eq_dec N.eq_dec a b); split; congruence.
Qed.

Lemma startswith_spec (p s : str) :
  startswith s p = true <-> exists r, s = p ++ r.
Proof.
  revert s. induction p as [|c p IH]; intros s; simpl.
  - split; [intros _; now exists s | reflexivity].
  - destruct s as [|d s].
    + split; [discriminate | intros [r Hr]; discriminate].
    + rewrite andb_true_iff, N.eqb_eq, IH. split.
      * intros [-> [r ->]]. now exists r.
      * intros [r Hr]. injection Hr as -> ->. split; [reflexivity | now exists r].
Qed.

Lemma contains_spec (needle hay : str) :
  contains needle hay = true <-> exists pre post, hay = pre ++ needle ++ post.
Proof.
  induction hay as [|c hay IH]; simpl.
  - rewrite orb_false_r, startswith_spec. split.
    + intros [r Hr]. exists [], r. exact Hr.
    + intros [pre [post H]]. destruct pre; [now exists post | discriminate].
  - rewrite orb_true_iff, startswith_spec, IH. split.
    + intros [[r Hr] | [pre [post H]]].
      * exists [], r. exact Hr.
      * exists (c :: pre), post. simpl. now rewrite H.
    + intros [pre [post H]]. destruct pre as [|d pre]; simpl in H.
      * left. now exists post.
      * right. injection H as _ H. now exists pre, post.
Qed.

Lemma endswith_spec (s suf : str) :
  endswith s suf = true <-> exists stem, s = stem ++ suf.
Proof.
  unfold endswith. rewrite andb_true_iff, Nat.leb_le, str_eqb_eq. split.
  - intros [Hle Heq]. exists (firstn (length s - length suf) s).
    pose proof (firstn_skipn (length s - length suf) s) as E.
    rewrite Heq in E. now symmetry.
  - intros [stem ->]. rewrite length_app. split; [lia|].
    replace (length stem + length suf - length suf) with (length stem) by lia.
    rewrite skipn_app, skipn_all, Nat.sub_diag. reflexivity.
Qed.

Lemma endswith_any_spec (s : str) (sufs : list str) :
  endswith_any s sufs = true <->
  exists suf, In suf sufs /\ exists stem, s = stem ++ suf.
Proof.
  unfold endswith_any. rewrite existsb_exists.
  split; intros [suf [Hin H]]; exists suf; split; trivial;
    now apply endswith_spec.
Qed.

Lemma code_files_loop_filter (code_files files : list str) :
  code_files_loop code_files files = code_files ++ filter is_code_file files.
Proof.
  revert code_files. induction files as [|f rest IH]; intros acc; simpl.
  - now rewrite app_nil_r.
  - rewrite IH. destruct (is_code_file f); [|reflexivity].
    now rewrite <- app_assoc.
Qed.

Section Properties.
Variable rt : Runtime.

(** *** Change discovery *)

Lemma split_lines_line (p r : str) :
  ~ In NL p -> split_lines (p ++ NL :: r) = p :: split_lines r.
Proof.
  induction p as [|c p IH]; intros Hnl; simpl.
  - reflexivity.
  - destruct (N.eqb_spec c NL) as [->|_].
    + exfalso. apply Hnl. now left.
    + rewrite IH; [reflexivity|]. intros H. apply Hnl. now right.
Qed.

Lemma split_lines_unlines (paths : list str) :
  Forall (fun p => ~ In NL p) paths ->
  split_lines (unlines paths) = paths ++ [[]].
Proof.
  induction 1 as [|p paths Hp _ IH]; simpl.
  - reflexivity.
  - rewrite <- app_assoc. simpl. rewrite split_lines_line by assumption.
    fold (unlines paths). now rewrite IH.
Qed.

Lemma diff_paths_unlines (paths : list str) :
  Forall (clean_path rt) paths -> diff_paths rt (unlines paths) = paths.
Proof.
  intros Hclean. unfold diff_paths.
  rewrite split_lines_unlines.
  2:{ eapply Forall_impl; [|exact Hclean]. intros p [_ [H _]]. exact H. }
  rewrite filter_app. simpl. rewrite app_nil_r.
  induction Hclean as [|p paths [Hne [_ Hstrip]] _ IH]; simpl.
  - reflexivity.
  - rewrite Hstrip. destruct p; [congruence|]. simpl.
    now rewrite Hstrip, IH.
Qed.

(** C4. When the diff command succeeds, the discovered files are the paths
    of its output that end in one of the ten allow-listed extensions: the
    output's paths filtered, so in their order and with their duplicates. *)
Theorem discovered_files_are_the_allowed_paths
        (w : World) (result : CompletedProcess) :
  git_diff w = Ret result ->
  returncode result = 0%Z ->
  snd (get_changed_files rt w)
    = filter is_code_file (diff_paths rt (stdout result))
  /\ (forall paths,
         Forall (clean_path rt) paths ->
         stdout result = unlines paths ->
         snd (get_changed_files rt w) = filter is_code_file paths)
  /\ (forall p,
         is_code_file p = true <->
         exists ext,
           In ext [py ".ts"; py ".tsx"; py ".js"; py ".jsx"; py ".py";
                   py ".java"; py ".cpp"; py ".c"; py ".h"; py ".hpp"]
           /\ exists stem, p = stem ++ ext).
Proof.
  intros Hgit Hrc.
  assert (Hmain : snd (get_changed_files rt w)
                  = filter is_code_file (diff_paths rt (stdout result))).
  { unfold get_changed_files. rewrite Hgit, Hrc. simpl.
    apply code_files_loop_filter. }
  split; [exact Hmain|]. split.
  - intros paths Hclean Hout.
    now rewrite Hmain, Hout, diff_paths_unlines.
  - intros p. apply endswith_any_spec.
Qed.
(** *** The prompt *)

(** *** The review call *)

Lemma call_gemini_api_response (w : World) (n : nat) (prompt api_key : str)
      (response : Response) :
  requests_post w n (request_url api_key) prompt = Ret response ->
  snd (call_gemini_api rt w n prompt api_key)
  = match read_response response with
    | Ret v => Ret v
    | Raise e => Ret (PStr (py "Error calling Gemini API: " ++ exn_str rt e))
    end.
Proof.
  intros H. unfold call_gemini_api. simpl. now rewrite H.
Qed.

Lemma call_gemini_api_returns (w : World) (n : nat) (prompt api_key : str) :
  exists v, snd (call_gemini_api rt w n prompt api_key) = Ret v.
Proof.
  unfold call_gemini_api. simpl.
  destruct (_ <- requests_post w n (request_url api_key) prompt ;; _);
    eexists; reflexivity.
Qed.

(** C9. On status 200, when the body holds a list of candidates whose
    first one carries a text, the call returns that text; when the list is
    empty or the body has no candidates, it returns the placeholder. *)
Theorem success_returns_first_candidate_text
        (w : World) (n : nat) (prompt api_key : str)
        (response : Response) (d : list (str * pyval)) :
  requests_post w n (request_url api_key) prompt = Ret response ->
  status_code response = 200%Z ->
  json response = Ret (PDict d) ->
  (forall cand others t,
      dict_get (py "candidates") d = Some (PList (cand :: others)) ->
      candidate_has_text cand t ->
      snd (call_gemini_api rt w n prompt api_key) = Ret (PStr t))
  /\ (dict_get (py "candidates") d = Some (PList []) \/
      dict_get (py "candidates") d = None ->
      snd (call_gemini_api rt w n prompt api_key)
      = Ret (PStr (py "No response generated from Gemini API"))).
Proof.
  intros Hpost Hstatus Hjson.
  rewrite call_gemini_api_response with (response := response) by exact Hpost.
  unfold read_response. rewrite Hstatus, Hjson.
  change (200 =? 200)%Z with true. cbv beta iota. unfold bind at 1.
  split.
  - intros cand others t Hc (dc & dcontent & dpart & more & -> & H1 & H2 & H3).
    unfold py_in, py_getitem, bind. rewrite Hc. simpl py_len. cbv beta iota.
    simpl Nat.ltb. cbv beta iota. simpl py_getitem0. cbv beta iota.
    rewrite H1, H2. simpl py_getitem0. cbv beta iota. now rewrite H3.
  - intros [Hc | Hc]; unfold py_in, py_getitem, bind; rewrite Hc; reflexivity.
Qed.
(** *** The summary *)

Lemma bullets_loop_eq (summary : str) (lines : list str) :
  bullets_loop rt summary lines
  = summary ++ flat_map (bullet rt) (filter (nonblank rt) lines).
Proof.
  revert summary.
  induction lines as [|l ls IH]; intros acc; cbn [bullets_loop filter flat_map].
  - now rewrite app_nil_r.
  - rewrite IH. unfold nonblank at 2.
    destruct (nonempty (strip rt l)); cbn [flat_map].
    + unfold bullet at 2. now rewrite <- !app_assoc.
    + reflexivity.
Qed.

Lemma summary_step_eq (summary f t : str) :
  summary_step rt summary f t = summary ++ summary_block rt (text_result f t).
Proof.
  unfold summary_step, summary_block, icon_line. rewrite bullets_loop_eq.
  unfold analysis_text, text_result. cbn [analysis file].
  now rewrite <- !app_assoc.
Qed.

Lemma summary_block_text (a : ReviewResult) (t : str) :
  analysis a = PStr t ->
  summary_block rt (text_result (file a) t) = summary_block rt a.
Proof.
  intros H. unfold summary_block, icon_line, analysis_text, text_result.
  cbn [analysis file]. now rewrite H.
Qed.

Lemma summary_loop_eq (summary : str) (analyses : list ReviewResult) :
  Forall is_text analyses ->
  summary_loop rt summary analyses
  = Ret (summary ++ flat_map (summary_block rt) analyses).
Proof.
  intros Hall. revert summary.
  induction Hall as [|a rest [t Ht] _ IH]; intros acc;
    cbn [summary_loop flat_map].
  - now rewrite app_nil_r.
  - rewrite Ht, IH, summary_step_eq, (summary_block_text a t Ht).
    now rewrite <- app_assoc.
Qed.

Lemma count_high_priority_eq (analyses : list ReviewResult) :
  Forall is_text analyses ->
  count_high_priority rt analyses
  = Ret (length (filter (is_high_priority rt) analyses)).
Proof.
  induction 1 as [|a rest [t Ht] _ IH]; cbn [count_high_priority filter].
  - reflexivity.
  - unfold analysis_upper, is_high_priority at 1, analysis_text.
    rewrite Ht, IH. cbn [bind].
    now destruct (mentions_high (upper rt t)).
Qed.

Lemma generate_overall_summary_eq (analyses : list ReviewResult) :
  Forall is_text analyses ->
  generate_overall_summary rt analyses
  = Ret (summary_header (length analyses)
                        (length (filter (is_high_priority rt) analyses))
         ++ flat_map (summary_block rt) analyses).
Proof.
  intros Hall. unfold generate_overall_summary.
  rewrite count_high_priority_eq by assumption. cbn [bind].
  now apply summary_loop_eq.
Qed.

Lemma mentions_contains (kw t : str) :
  contains kw (upper rt t) = true <-> mentions rt kw t.
Proof. apply contains_spec. Qed.

Lemma upper_app (a b : str) : upper rt (a ++ b) = upper rt a ++ upper rt b.
Proof. apply flat_map_app. Qed.

Lemma upper_ascii (t : str) :
  Forall (fun c => (c < 128)%N) t -> upper rt t = map ascii_upper t.
Proof.
  induction 1 as [|c t Hc _ IH]; cbn [upper flat_map map].
  - reflexivity.
  - unfold upper_char. apply N.ltb_lt in Hc. rewrite Hc. cbn [app].
    f_equal. exact IH.
Qed.
Lemma is_high_priority_spec (a : ReviewResult) :
  is_high_priority rt a = true <->
  mentions rt (py "HIGH") (analysis_text a) \/
  mentions rt (py "CRITICAL") (analysis_text a).
Proof.
  unfold is_high_priority, mentions_high.
  now rewrite orb_true_iff, !mentions_contains.
Qed.

Lemma icons_differ :
  py "🔴" <> py "🟡" /\ py "🔴" <> py "🟢" /\ py "🟡" <> py "🟢".
Proof. repeat split; intros H; vm_compute in H; discriminate. Qed.

Lemma severity_icon_spec (t : str) :
  (severity_icon rt t = py "🔴" <->
   mentions rt (py "HIGH") t \/ mentions rt (py "CRITICAL") t)
  /\ (severity_icon rt t = py "🟡" <->
      ~ (mentions rt (py "HIGH") t \/ mentions rt (py "CRITICAL") t)
      /\ mentions rt (py "MEDIUM") t)
  /\ (severity_icon rt t = py "🟢" <->
      ~ (mentions rt (py "HIGH") t \/ mentions rt (py "CRITICAL") t)
      /\ ~ mentions rt (py "MEDIUM") t).
Proof.
  destruct icons_differ as [Hrm [Hrl Hml]].
  pose proof (is_high_priority_spec (text_result [] t)) as Hh.
  unfold is_high_priority, text_result, analysis_text in Hh. cbn [analysis] in Hh.
  pose proof (mentions_contains (py "MEDIUM") t) as Hm.
  unfold severity_icon.
  destruct (mentions_high (upper rt t)) eqn:Eh;
    [|destruct (contains (py "MEDIUM") (upper rt t)) eqn:Em].
  - assert (Hhigh : mentions rt (py "HIGH") t \/ mentions rt (py "CRITICAL") t)
      by now apply Hh.
    repeat split; try tauto; try congruence;
      try (intros H; symmetry in H; contradiction).
  - assert (Hnh : ~ (mentions rt (py "HIGH") t \/ mentions rt (py "CRITICAL") t)).
    { intros H. apply Hh in H. discriminate. }
    assert (Hmed : mentions rt (py "MEDIUM") t) by now apply Hm.
    repeat split; try tauto; try congruence;
      try (intros H; symmetry in H; contradiction).
  - assert (Hnh : ~ (mentions rt (py "HIGH") t \/ mentions rt (py "CRITICAL") t)).
    { intros H. apply Hh in H. discriminate. }
    assert (Hnm : ~ mentions rt (py "MEDIUM") t).
    { intros H. apply Hm in H. discriminate. }
    repeat split; try tauto; try congruence;
      try (intros H; symmetry in H; contradiction).
Qed.


(** *** The loop over the changed files *)

Lemma analyze_file_with_gemini_eq
      (w : World) (n : nat) (f content api_key : str) :
  analyze_file_with_gemini rt w n f content api_key
  = ([HttpPost (request_url api_key) (build_prompt f content)],
     Ret {| file := f;
            analysis := api_answer rt w n (build_prompt f content) api_key;
            severity := py "MEDIUM" |}).
Proof.
  unfold analyze_file_with_gemini, api_answer.
  destruct (call_gemini_api_returns w n (build_prompt f content) api_key)
    as [v Hv].
  unfold call_gemini_api in *. cbn [snd] in Hv. rewrite Hv. reflexivity.
Qed.

Lemma analyze_loop_results
      (w : World) (api_key : str) (files : list str) :
  forall n acc,
    snd (analyze_loop rt w api_key n acc files)
    = Ret (acc ++ loop_results rt w api_key n files).
Proof.
  induction files as [|f rest IH]; intros n acc;
    cbn [analyze_loop loop_results].
  - cbn [snd]. now rewrite app_nil_r.
  - unfold analysed, result_for, prompt_for.
    destruct (path_exists w f); cbn [andb].
    + destruct (read_file_content rt w f) as [t_read content]. cbn [snd].
      destruct (nonempty content).
      * rewrite analyze_file_with_gemini_eq.
        specialize (IH (S n)
          (acc ++ [{| file := f;
                      analysis := api_answer rt w n (build_prompt f content) api_key;
                      severity := py "MEDIUM" |}])).
        destruct (analyze_loop rt w api_key (S n) _ rest) as [t_rest out].
        cbn [snd] in *. rewrite IH. now rewrite <- app_assoc.
      * specialize (IH n acc).
        destruct (analyze_loop rt w api_key n acc rest) as [t_rest out].
        exact IH.
    + specialize (IH n acc).
      destruct (analyze_loop rt w api_key n acc rest) as [t_rest out].
      exact IH.
Qed.

Lemma posts_app (t1 t2 : trace) : posts (t1 ++ t2) = posts t1 ++ posts t2.
Proof. apply flat_map_app. Qed.

Lemma posts_read_file_content (w : World) (f : str) :
  posts (fst (read_file_content rt w f)) = [].
Proof. unfold read_file_content. now destruct (open_read w f). Qed.

Lemma analyze_loop_posts
      (w : World) (api_key : str) (files : list str) :
  forall n acc,
    posts (fst (analyze_loop rt w api_key n acc files))
    = map (fun a => (request_url api_key, prompt_for rt w (file a)))
          (loop_results rt w api_key n files).
Proof.
  induction files as [|f rest IH]; intros n acc;
    cbn [analyze_loop loop_results].
  - reflexivity.
  - unfold analysed, result_for.
    pose proof (posts_read_file_content w f) as Hread.
    destruct (path_exists w f); cbn [andb].
    + unfold prompt_for at 2.
      destruct (read_file_content rt w f) as [t_read content] eqn:E.
      cbn [fst snd] in *.
      destruct (nonempty content).
      * rewrite analyze_file_with_gemini_eq.
        specialize (IH (S n)
          (acc ++ [{| file := f;
                      analysis := api_answer rt w n (build_prompt f content) api_key;
                      severity := py "MEDIUM" |}])).
        destruct (analyze_loop rt w api_key (S n) _ rest) as [t_rest out].
        cbn [fst] in *. rewrite !posts_app, Hread, IH.
        cbn [map file]. replace (prompt_for rt w f) with (build_prompt f content)
          by (unfold prompt_for; now rewrite E).
        reflexivity.
      * specialize (IH n acc).
        destruct (analyze_loop rt w api_key n acc rest) as [t_rest out].
        cbn [fst] in *. rewrite !posts_app, Hread, IH. reflexivity.
    + specialize (IH n acc).
      destruct (analyze_loop rt w api_key n acc rest) as [t_rest out].
      cbn [fst] in *. rewrite !posts_app, IH. reflexivity.
Qed.

Lemma loop_results_files (w : World) (api_key : str) (files : list str) :
  forall n,
    map file (loop_results rt w api_key n files) = filter (analysed rt w) files.
Proof.
  induction files as [|f rest IH]; intros n; cbn [loop_results filter].
  - reflexivity.
  - destruct (analysed rt w f); cbn [map]; now rewrite IH.
Qed.

Lemma loop_results_length (w : World) (api_key : str) (files : list str) (n : nat) :
  length (loop_results rt w api_key n files)
  = length (filter (analysed rt w) files).
Proof. now rewrite <- (loop_results_files w api_key files n), length_map. Qed.

Lemma loop_results_app (w : World) (api_key : str) (pre post : list str) :
  forall n,
    loop_results rt w api_key n (pre ++ post)
    = loop_results rt w api_key n pre
      ++ loop_results rt w api_key
           (n + length (filter (analysed rt w) pre)) post.
Proof.
  induction pre as [|f pre IH]; intros n; cbn [app loop_results filter].
  - now rewrite Nat.add_0_r.
  - destruct (analysed rt w f).
    + cbn [length app]. rewrite IH. do 2 f_equal. f_equal. lia.
    + apply IH.
Qed.

Lemma loop_results_severity (w : World) (api_key : str) (files : list str) :
  forall n,
    Forall (fun a => severity a = py "MEDIUM")
           (loop_results rt w api_key n files).
Proof.
  induction files as [|f rest IH]; intros n; cbn [loop_results].
  - constructor.
  - destruct (analysed rt w f); [constructor; [reflexivity|]|]; apply IH.
Qed.
(** *** The report *)

Lemma sections_loop_eq (review_output : str) (analyses : list ReviewResult) :
  Forall is_text analyses ->
  sections_loop review_output analyses
  = Ret (review_output
         ++ flat_map (fun a => file_section (file a) (analysis_text a)) analyses).
Proof.
  intros Hall. revert review_output.
  induction Hall as [|a rest [t Ht] _ IH]; intros acc;
    cbn [sections_loop flat_map].
  - now rewrite app_nil_r.
  - unfold analysis_text at 1. rewrite Ht, IH. now rewrite <- app_assoc.
Qed.

Lemma sections_loop_texts (analyses : list ReviewResult) :
  forall review_output r,
    sections_loop review_output analyses = Ret r -> Forall is_text analyses.
Proof.
  induction analyses as [|a rest IH]; intros acc r H; cbn [sections_loop] in H.
  - constructor.
  - destruct (analysis a) eqn:Ea; try discriminate.
    constructor; [now exists s | eapply IH; exact H].
Qed.

Lemma build_review_eq (analyses : list ReviewResult) :
  Forall is_text analyses ->
  build_review rt analyses = Ret (report_of rt analyses).
Proof.
  intros Hall. unfold build_review, report_of.
  destruct analyses as [|a rest]; [cbn [bind app]; reflexivity|].
  rewrite generate_overall_summary_eq by assumption. cbn [bind].
  rewrite sections_loop_eq by assumption. cbn [bind].
  now rewrite <- !app_assoc.
Qed.

Lemma build_review_texts (analyses : list ReviewResult) (r : str) :
  build_review rt analyses = Ret r -> Forall is_text analyses.
Proof.
  unfold build_review. destruct analyses as [|a rest]; [constructor|].
  destruct (generate_overall_summary rt (a :: rest)); [|discriminate].
  cbn [bind]. destruct (sections_loop _ (a :: rest)) eqn:E; [|discriminate].
  intros _. eapply sections_loop_texts. exact E.
Qed.

Lemma api_answer_text (w : World) (n : nat) (prompt api_key : str) :
  answers_are_text w ->
  exists s, api_answer rt w n prompt api_key = PStr s.
Proof.
  intros Htext. unfold api_answer, call_gemini_api. cbn [snd].
  destruct (requests_post w n (request_url api_key) prompt) as [response|e] eqn:E;
    cbn [bind].
  - destruct (read_response response) as [v|e] eqn:Er.
    + eapply Htext; eassumption.
    + eexists. reflexivity.
  - eexists. reflexivity.
Qed.

Lemma loop_results_texts (w : World) (api_key : str) (files : list str) :
  answers_are_text w ->
  forall n, Forall is_text (loop_results rt w api_key n files).
Proof.
  intros Htext. induction files as [|f rest IH]; intros n; cbn [loop_results].
  - constructor.
  - destruct (analysed rt w f); [|apply IH].
    constructor; [|apply IH]. unfold is_text, result_for. cbn [analysis].
    now apply api_answer_text.
Qed.

(** *** A whole run *)

Lemma posts_get_changed_files (w : World) :
  posts (fst (get_changed_files rt w)) = [].
Proof.
  unfold get_changed_files. destruct (git_diff w) as [result|e]; [|reflexivity].
  now destruct (returncode result =? 0)%Z.
Qed.

Lemma posts_prints (ls : list str) (f : str -> str) :
  posts (map (fun l => Print (f l)) ls) = [].
Proof. induction ls; [reflexivity | exact IHls]. Qed.

Lemma main_on_changed_files
      (w : World) (api_key f : str) (files : list str) :
  key_of w = Some api_key ->
  snd (get_changed_files rt w) = f :: files ->
  (Forall is_text (loop_results rt w api_key 0 (f :: files)) ->
   run_output (main rt w)
   = Some (report_of rt (loop_results rt w api_key 0 (f :: files)))
   /\ run_final (main rt w) = Done
   /\ exists t,
       run_trace (main rt w)
       = t ++ [MkDirs OUTPUT_DIR;
               WriteFile OUTPUT_PATH
                 (report_of rt (loop_results rt w api_key 0 (f :: files)));
               Print (py "✅ AI Code Review completed!");
               Print (py "📝 Review saved to .github/scripts/review-output.md")]
       /\ posts t
          = map (fun a => (request_url api_key, prompt_for rt w (file a)))
                (loop_results rt w api_key 0 (f :: files)))
  /\ (forall report,
         run_output (main rt w) = Some report ->
         Forall is_text (loop_results rt w api_key 0 (f :: files))).
Proof.
  intros Hkey Hfiles.
  pose proof (posts_get_changed_files w) as Hpd.
  unfold main. rewrite Hkey.
  destruct (get_changed_files rt w) as [t_diff changed]. cbn [fst snd] in *.
  subst changed.
  pose proof (analyze_loop_results w api_key (f :: files) 0 []) as Hres.
  pose proof (analyze_loop_posts w api_key (f :: files) 0 []) as Hposts.
  destruct (analyze_loop rt w api_key 0 [] (f :: files)) as [t_loop r].
  cbn [fst snd] in *. subst r. rewrite app_nil_l. cbn [bind].
  split.
  - intros Hall. rewrite build_review_eq by assumption.
    cbn [run_output run_final run_trace]. split; [reflexivity|].
    split; [reflexivity|]. eexists. split; [reflexivity|].
    rewrite !posts_app, Hpd, Hposts.
    change (posts (?e :: map ?g ?l)) with (posts (map g l)).
    assert (Hp : posts (map (fun f0 : list char => Print (py "  - " ++ f0))
                            (f :: files)) = [])
      by apply (posts_prints (f :: files) (fun l => py "  - " ++ l)).
    rewrite Hp. reflexivity.
  - intros report.
    destruct (build_review rt (loop_results rt w api_key 0 (f :: files))) eqn:E.
    + intros _. eapply build_review_texts. exact E.
    + discriminate.
Qed.


Lemma get_changed_files_trace (w : World) (e : event) :
  In e (fst (get_changed_files rt w)) ->
  e = RunGitDiff \/ exists l, e = Print l.
Proof.
  unfold get_changed_files.
  destruct (git_diff w) as [result|x];
    [destruct (returncode result =? 0)%Z|]; cbn [fst In];
    intros H; repeat destruct H as [H|H]; subst; eauto; contradiction.
Qed.

(** When discovery yields no file, the run only prints, runs the diff and
    asks for the fixed document to be written to the output path: it looks at
    no changed file, reads none and posts nothing. Where the output directory
    exists, the run ends normally and the output file holds that document. *)
Theorem no_changed_files_short_circuit (w : World) (api_key : str) :
  key_of w = Some api_key ->
  snd (get_changed_files rt w) = [] ->
  run_trace (main rt w)
  = [Print (py "🤖 Starting AI Code Review with Gemini...")] ++
    fst (get_changed_files rt w) ++
    [Print (py "ℹ️ No code files changed in this PR");
     WriteFile OUTPUT_PATH NO_FILES_DOCUMENT]
  /\ (forall e,
         In e (run_trace (main rt w)) ->
         e = RunGitDiff \/ (exists l, e = Print l) \/
         e = WriteFile OUTPUT_PATH NO_FILES_DOCUMENT)
  /\ posts (run_trace (main rt w)) = []
  /\ (output_dir_exists w = true ->
      run_final (main rt w) = Done /\
      run_output (main rt w) = Some NO_FILES_DOCUMENT).
Proof.
  intros Hkey Hfiles.
  pose proof (posts_get_changed_files w) as Hposts.
  pose proof (get_changed_files_trace w) as Hdiff.
  unfold main. rewrite Hkey.
  destruct (get_changed_files rt w) as [t_diff changed]. cbn [fst snd] in *.
  subst changed.
  assert (Htrace :
    run_trace (if output_dir_exists w
               then {| run_trace := [Print (py "🤖 Starting AI Code Review with Gemini...")] ++
                                    t_diff ++
                                    [Print (py "ℹ️ No code files changed in this PR");
                                     WriteFile OUTPUT_PATH NO_FILES_DOCUMENT];
                       run_final := Done;
                       run_output := Some NO_FILES_DOCUMENT |}
               else {| run_trace := [Print (py "🤖 Starting AI Code Review with Gemini...")] ++
                                    t_diff ++
                                    [Print (py "ℹ️ No code files changed in this PR");
                                     WriteFile OUTPUT_PATH NO_FILES_DOCUMENT];
                       run_final := Crash (FileNotFoundError OUTPUT_PATH);
                       run_output := None |})
    = [Print (py "🤖 Starting AI Code Review with Gemini...")] ++ t_diff ++
      [Print (py "ℹ️ No code files changed in this PR");
       WriteFile OUTPUT_PATH NO_FILES_DOCUMENT])
    by now destruct (output_dir_exists w).
  cbv zeta. rewrite Htrace.
  split; [reflexivity|]. split; [|split].
  - intros e He. rewrite !in_app_iff in He. cbn [In] in He.
    destruct He as [[He|[]] | [He | [He|[He|[]]]]]; subst; eauto.
    destruct (Hdiff e He) as [->|Hp]; eauto.
  - rewrite !posts_app, Hposts. reflexivity.
  - intros Hdir. rewrite Hdir. split; reflexivity.
Qed.
(** *** The severity field *)

Lemma count_high_priority_severity (s : str) (analyses : list ReviewResult) :
  count_high_priority rt (map (with_severity s) analyses)
  = count_high_priority rt analyses.
Proof.
  induction analyses as [|a rest IH]; cbn [map count_high_priority].
  - reflexivity.
  - now rewrite IH.
Qed.

Lemma summary_loop_severity (s : str) (analyses : list ReviewResult) :
  forall summary,
    summary_loop rt summary (map (with_severity s) analyses)
    = summary_loop rt summary analyses.
Proof.
  induction analyses as [|a rest IH]; intros acc; cbn [map summary_loop].
  - reflexivity.
  - cbn [with_severity analysis file]. destruct (analysis a); trivial.
Qed.

(** C8. Every result that [analyze_file_with_gemini] builds, and so every
    result of a run, has the severity "MEDIUM", whatever the analysis says:
    a text that gets the red icon is still labelled "MEDIUM". The summary
    does not read the field: changing it changes nothing in the summary. *)
Theorem severity_is_always_medium :
  (forall w n file_path content api_key,
      exists r,
        snd (analyze_file_with_gemini rt w n file_path content api_key) = Ret r
        /\ severity r = py "MEDIUM")
  /\ (forall w api_key files,
         exists analyses,
           snd (analyze_loop rt w api_key 0 [] files) = Ret analyses
           /\ Forall (fun a => severity a = py "MEDIUM") analyses)
  /\ (forall w n file_path content api_key,
         requests_post w n (request_url api_key)
                       (build_prompt file_path content)
         = Ret {| status_code := 200; text := [];
                  json := Ret (PDict [(py "candidates",
                                       PList [candidate_with_text (py "CRITICAL")])]) |} ->
         snd (analyze_file_with_gemini rt w n file_path content api_key)
         = Ret {| file := file_path;
                  analysis := PStr (py "CRITICAL");
                  severity := py "MEDIUM" |}
         /\ severity_icon rt (py "CRITICAL") = py "🔴")
  /\ (forall s analyses,
         generate_overall_summary rt (map (with_severity s) analyses)
         = generate_overall_summary rt analyses).
Proof.
  split; [|split; [|split]].
  - intros w n f content api_key. rewrite analyze_file_with_gemini_eq.
    eexists. split; reflexivity.
  - intros w api_key files. rewrite analyze_loop_results.
    eexists. split; [reflexivity|]. apply loop_results_severity.
  - intros w n f content api_key Hpost.
    split; [|reflexivity].
    rewrite analyze_file_with_gemini_eq. cbn [snd]. do 2 f_equal.
    unfold api_answer, call_gemini_api. cbn [snd]. rewrite Hpost.
    reflexivity.
  - intros s analyses. unfold generate_overall_summary.
    rewrite count_high_priority_severity, length_map.
    destruct (count_high_priority rt analyses); cbn [bind]; [|reflexivity].
    apply summary_loop_severity.
Qed.
(** *** Files that are skipped *)

Lemma main_posts (w : World) (api_key f : str) (files : list str) :
  key_of w = Some api_key ->
  snd (get_changed_files rt w) = f :: files ->
  posts (run_trace (main rt w))
  = map (fun a => (request_url api_key, prompt_for rt w (file a)))
        (loop_results rt w api_key 0 (f :: files)).
Proof.
  intros Hkey Hfiles.
  pose proof (posts_get_changed_files w) as Hpd.
  unfold main. rewrite Hkey.
  destruct (get_changed_files rt w) as [t_diff changed]. cbn [fst snd] in *.
  subst changed.
  pose proof (analyze_loop_posts w api_key (f :: files) 0 []) as Hposts.
  destruct (analyze_loop rt w api_key 0 [] (f :: files)) as [t_loop r].
  cbn [fst] in Hposts.
  assert (Hp : posts (map (fun f0 : list char => Print (py "  - " ++ f0))
                          (f :: files)) = [])
    by apply (posts_prints (f :: files) (fun l => py "  - " ++ l)).
  destruct (analyses <- r ;; build_review rt analyses);
    cbn [run_trace]; rewrite !posts_app, Hpd, Hposts;
    change (posts (?e :: map ?g ?l)) with (posts (map g l));
    rewrite Hp; cbn [posts flat_map app]; try rewrite app_nil_r; reflexivity.
Qed.

Lemma read_file_content_empty (w : World) (f : str) :
  (open_read w f = Ret [] \/ exists e, open_read w f = Raise e) <->
  snd (read_file_content rt w f) = [].
Proof.
  unfold read_file_content. destruct (open_read w f) as [content|e]; cbn [snd].
  - split.
    + intros [H | [e H]]; [now injection H | discriminate].
    + intros ->. now left.
  - split; [reflexivity|]. intros _. right. now exists e.
Qed.

(** C10. A changed file that exists and whose read gives the empty
    string, because [open] or [read] raised or because the file is empty,
    is passed over: its turn of the loop only tests the path, reads and
    prints, posts nothing and adds no result. So no result of the run is
    for that file, every POST of the run is for a file that has a result,
    and the report, if one is written, is made of those results only. *)
Theorem empty_read_is_skipped
        (w : World) (api_key : str) (files : list str) (f : str) :
  key_of w = Some api_key ->
  snd (get_changed_files rt w) = files ->
  In f files ->
  path_exists w f = true ->
  (open_read w f = Ret [] \/ exists e, open_read w f = Raise e) ->
  (forall n acc rest,
      analyze_loop rt w api_key n acc (f :: rest)
      = ([PathExists f; Print (py "🔍 Analyzing " ++ f ++ py "...")] ++
         fst (read_file_content rt w f) ++
         [Print (py "⚠️ Could not read content of " ++ f)] ++
         fst (analyze_loop rt w api_key n acc rest),
         snd (analyze_loop rt w api_key n acc rest)))
  /\ posts (fst (read_file_content rt w f)) = []
  /\ exists analyses,
      snd (analyze_loop rt w api_key 0 [] files) = Ret analyses
      /\ Forall (fun a => file a <> f) analyses
      /\ posts (run_trace (main rt w))
         = map (fun a => (request_url api_key, prompt_for rt w (file a)))
               analyses
      /\ (forall report,
             run_output (main rt w) = Some report ->
             report = report_of rt analyses).
Proof.
  intros Hkey Hfiles Hin Hexists Hread.
  apply read_file_content_empty in Hread.
  split; [|split; [apply posts_read_file_content|]].
  - intros n acc rest. cbn [analyze_loop]. rewrite Hexists.
    destruct (read_file_content rt w f) as [t_read content].
    cbn [fst snd] in *. subst content. cbn [nonempty].
    destruct (analyze_loop rt w api_key n acc rest) as [t_rest out].
    cbn [fst snd]. now rewrite <- !app_assoc.
  - exists (loop_results rt w api_key 0 files).
    split; [apply (analyze_loop_results w api_key files 0 [])|].
    assert (Hskip : analysed rt w f = false).
    { unfold analysed. rewrite Hread. apply andb_false_r. }
    split; [|split].
    + apply Forall_forall. intros a Ha Hfile.
      assert (Hf : In (file a) (filter (analysed rt w) files)).
      { rewrite <- (loop_results_files w api_key files 0).
        now apply in_map. }
      apply filter_In in Hf as [_ Hf]. rewrite Hfile in Hf. congruence.
    + destruct files as [|f0 rest]; [contradiction|].
      now apply main_posts.
    + intros report Hout.
      destruct files as [|f0 rest]; [contradiction|].
      destruct (main_on_changed_files w api_key f0 rest Hkey Hfiles)
        as [Hrun Htexts].
      destruct (Hrun (Htexts report Hout)) as (Hout' & _).
      rewrite Hout in Hout'. now injection Hout'.
Qed.
(** *** What a run asks of the outside world *)

Lemma io_app (t1 t2 : trace) : io (t1 ++ t2) = io t1 ++ io t2.
Proof. apply filter_app. Qed.

Lemma io_prints (ls : list str) (f : str -> str) :
  io (map (fun l => Print (f l)) ls) = [].
Proof. induction ls; [reflexivity | exact IHls]. Qed.

Lemma io_get_changed_files (w : World) :
  io (fst (get_changed_files rt w)) = [RunGitDiff].
Proof.
  unfold get_changed_files. destruct (git_diff w) as [result|e]; [|reflexivity].
  now destruct (returncode result =? 0)%Z.
Qed.

Lemma io_read_file_content (w : World) (f : str) :
  io (fst (read_file_content rt w f)) = [ReadFile f].
Proof. unfold read_file_content. now destruct (open_read w f). Qed.

Lemma io_analyze_loop (w : World) (api_key : str) (files : list str) :
  forall n acc,
    io (fst (analyze_loop rt w api_key n acc files))
    = flat_map (file_io rt w api_key) files.
Proof.
  induction files as [|f rest IH]; intros n acc;
    cbn [analyze_loop flat_map].
  - reflexivity.
  - unfold file_io at 1.
    pose proof (io_read_file_content w f) as Hread.
    destruct (path_exists w f).
    + unfold prompt_for.
      destruct (read_file_content rt w f) as [t_read content] eqn:E.
      cbn [fst snd] in *.
      destruct (nonempty content).
      * rewrite analyze_file_with_gemini_eq.
        specialize (IH (S n)
          (acc ++ [{| file := f;
                      analysis := api_answer rt w n (build_prompt f content) api_key;
                      severity := py "MEDIUM" |}])).
        destruct (analyze_loop rt w api_key (S n) _ rest) as [t_rest out].
        cbn [fst] in *. rewrite !io_app, Hread, IH. reflexivity.
      * specialize (IH n acc).
        destruct (analyze_loop rt w api_key n acc rest) as [t_rest out].
        cbn [fst] in *. rewrite !io_app, Hread, IH. reflexivity.
    + specialize (IH n acc).
      destruct (analyze_loop rt w api_key n acc rest) as [t_rest out].
      cbn [fst] in *. rewrite !io_app, IH. reflexivity.
Qed.

Lemma main_with_changed_files
      (w : World) (api_key f : str) (files : list str) :
  key_of w = Some api_key ->
  snd (get_changed_files rt w) = f :: files ->
  exists t,
    io t = RunGitDiff :: flat_map (file_io rt w api_key) (f :: files)
    /\ main rt w
       = match build_review rt (loop_results rt w api_key 0 (f :: files)) with
         | Ret review_output =>
           {| run_trace :=
                t ++ [MkDirs OUTPUT_DIR;
                      WriteFile OUTPUT_PATH review_output;
                      Print (py "✅ AI Code Review completed!");
                      Print (py "📝 Review saved to .github/scripts/review-output.md")];
              run_final := Done;
              run_output := Some review_output |}
         | Raise e =>
           {| run_trace := t; run_final := Crash e; run_output := None |}
         end.
Proof.
  intros Hkey Hfiles.
  pose proof (io_get_changed_files w) as Hdiff.
  unfold main. rewrite Hkey.
  destruct (get_changed_files rt w) as [t_diff changed]. cbn [fst snd] in *.
  subst changed.
  pose proof (analyze_loop_results w api_key (f :: files) 0 []) as Hres.
  pose proof (io_analyze_loop w api_key (f :: files) 0 []) as Hio.
  destruct (analyze_loop rt w api_key 0 [] (f :: files)) as [t_loop r].
  cbn [fst snd] in *. subst r. rewrite app_nil_l. cbn [bind].
  eexists. split; [|destruct (build_review rt _); reflexivity].
  rewrite !io_app, Hdiff, Hio.
  change (io (?e :: map ?g ?l)) with (io (map g l)).
  assert (Hp : io (map (fun f0 : list char => Print (py "  - " ++ f0))
                       (f :: files)) = [])
    by apply (io_prints (f :: files) (fun l => py "  - " ++ l)).
  rewrite Hp. reflexivity.
Qed.

Lemma main_without_changed_files (w : World) (api_key : str) :
  key_of w = Some api_key ->
  snd (get_changed_files rt w) = [] ->
  main rt w
  = {| run_trace :=
         [Print (py "🤖 Starting AI Code Review with Gemini...")] ++
         fst (get_changed_files rt w) ++
         [Print (py "ℹ️ No code files changed in this PR");
          WriteFile OUTPUT_PATH NO_FILES_DOCUMENT];
       run_final := if output_dir_exists w then Done
                    else Crash (FileNotFoundError OUTPUT_PATH);
       run_output := if output_dir_exists w then Some NO_FILES_DOCUMENT
                     else None |}.
Proof.
  intros Hkey Hfiles. unfold main. rewrite Hkey.
  destruct (get_changed_files rt w) as [t_diff changed]. cbn [fst snd] in *.
  subst changed. cbv zeta. now destruct (output_dir_exists w).
Qed.
(** X2. When the diff command fails, by a non-zero exit status or by an
    exception, [get_changed_files] prints one error line and returns no
    file; the run then behaves as for a commit without code changes and asks
    for the "no files changed" document to be written. *)
Theorem diff_failure_is_reported_as_no_changes (w : World) (api_key : str) :
  key_of w = Some api_key ->
  diff_failed w ->
  (exists line, get_changed_files rt w = ([RunGitDiff; Print line], []))
  /\ io (run_trace (main rt w))
     = [RunGitDiff; WriteFile OUTPUT_PATH NO_FILES_DOCUMENT]
  /\ (output_dir_exists w = true ->
      run_final (main rt w) = Done
      /\ run_output (main rt w) = Some NO_FILES_DOCUMENT).
Proof.
  intros Hkey Hfail.
  assert (Hdiff : exists line, get_changed_files rt w = ([RunGitDiff; Print line], [])).
  { unfold diff_failed in Hfail. unfold get_changed_files.
    destruct (git_diff w) as [result|e].
    - destruct (Z.eqb_spec (returncode result) 0); [contradiction|].
      eexists. reflexivity.
    - eexists. reflexivity. }
  split; [exact Hdiff|].
  destruct Hdiff as [line Hdiff].
  rewrite (main_without_changed_files w api_key Hkey) by now rewrite Hdiff.
  rewrite Hdiff. cbn [run_trace run_final run_output fst]. split.
  - reflexivity.
  - intros ->. split; reflexivity.
Qed.

(** X3. With changed files, a run goes once over them in order: it tests
    each path, reads each file that exists and posts once for each file
    whose content is not empty; only if the report could be built does it
    then create the output directory and write the report. Nothing else is
    asked of the outside world. *)
Theorem run_is_one_pass_over_the_changed_files
        (w : World) (api_key f : str) (files : list str) :
  key_of w = Some api_key ->
  snd (get_changed_files rt w) = f :: files ->
  io (run_trace (main rt w))
  = RunGitDiff :: flat_map (file_io rt w api_key) (f :: files)
    ++ match run_output (main rt w) with
       | Some report => [MkDirs OUTPUT_DIR; WriteFile OUTPUT_PATH report]
       | None => []
       end.
Proof.
  intros Hkey Hfiles.
  destruct (main_with_changed_files w api_key f files Hkey Hfiles)
    as (t & Hio & ->).
  destruct (build_review rt _); cbn [run_trace run_output].
  - rewrite io_app, Hio. reflexivity.
  - rewrite Hio. now rewrite app_nil_r.
Qed.
(** *** The report of a run *)



(** X5. When none of the changed files can be analysed (each is missing
    or reads as empty), the run posts nothing and still ends normally, with a
    report made of the title for 0 files and the footer only. *)
Theorem run_with_nothing_to_analyse
        (w : World) (api_key f : str) (files : list str) :
  key_of w = Some api_key ->
  snd (get_changed_files rt w) = f :: files ->
  (forall p, In p (f :: files) -> analysed rt w p = false) ->
  posts (run_trace (main rt w)) = []
  /\ run_final (main rt w) = Done
  /\ run_output (main rt w)
     = Some (py "## 🤖 AI Code Review Results (Gemini)" ++ [NL; NL] ++
             py "**Analyzed 0 files**" ++ [NL; NL] ++
             py "*This review was generated by Google Gemini AI using advanced code analysis.*").
Proof.
  intros Hkey Hfiles Hnone.
  assert (Hres : loop_results rt w api_key 0 (f :: files) = []).
  { apply map_eq_nil with (f := file). rewrite loop_results_files.
    clear Hfiles. revert Hnone. generalize (f :: files) as l.
    induction l as [|p ps IH]; intros Hnone; [reflexivity|]. cbn [filter].
    rewrite (Hnone p (or_introl eq_refl)). apply IH.
    intros q Hq. apply Hnone. now right. }
  split.
  - rewrite (main_posts w api_key f files Hkey Hfiles), Hres. reflexivity.
  - destruct (main_on_changed_files w api_key f files Hkey Hfiles) as [Hrun _].
    rewrite Hres in Hrun. destruct (Hrun (Forall_nil _)) as (Hout & Hfinal & _).
    split; [exact Hfinal|]. rewrite Hout. apply (f_equal (@Some str)).
    vm_compute. reflexivity.
Qed.
(** *** Answers that are not texts *)

Lemma count_high_priority_non_text (analyses : list ReviewResult) :
  ~ Forall is_text analyses ->
  count_high_priority rt analyses = Raise AttributeError.
Proof.
  induction analyses as [|a rest IH]; intros Hnot.
  - exfalso. apply Hnot. constructor.
  - cbn [count_high_priority]. unfold analysis_upper.
    destruct (analysis a) eqn:Ea; cbn [bind]; try reflexivity.
    rewrite IH; [reflexivity|]. intros Hrest. apply Hnot.
    constructor; [now exists s | exact Hrest].
Qed.

Lemma build_review_non_text (analyses : list ReviewResult) :
  ~ Forall is_text analyses ->
  build_review rt analyses = Raise AttributeError.
Proof.
  intros Hnot. unfold build_review, generate_overall_summary.
  destruct analyses as [|a rest].
  - exfalso. apply Hnot. constructor.
  - now rewrite count_high_priority_non_text.
Qed.

(** *** What a run writes *)





(** *** Failures of the review call *)

(** X8. [call_gemini_api] makes exactly one POST, to the endpoint URL
    followed by "?key=" and the credential, and always returns: when the POST
    raises, when the body of a 200 answer is not JSON, when the JSON is
    [null], or when the first candidate has no "content" (the shape of a
    blocked answer), the value returned is the text
    "Error calling Gemini API: " followed by the text of the exception. *)
Theorem call_gemini_api_turns_failures_into_text
        (w : World) (n : nat) (prompt api_key : str) :
  fst (call_gemini_api rt w n prompt api_key)
  = [HttpPost (GEMINI_API_URL ++ py "?key=" ++ api_key) prompt]
  /\ (exists v, snd (call_gemini_api rt w n prompt api_key) = Ret v)
  /\ (forall e,
         requests_post w n (request_url api_key) prompt = Raise e ->
         snd (call_gemini_api rt w n prompt api_key)
         = Ret (PStr (py "Error calling Gemini API: " ++ exn_str rt e)))
  /\ (forall response,
         requests_post w n (request_url api_key) prompt = Ret response ->
         status_code response = 200%Z ->
         (forall e,
             json response = Raise e ->
             snd (call_gemini_api rt w n prompt api_key)
             = Ret (PStr (py "Error calling Gemini API: " ++ exn_str rt e)))
         /\ (json response = Ret PNone ->
             snd (call_gemini_api rt w n prompt api_key)
             = Ret (PStr (py "Error calling Gemini API: " ++
                          exn_str rt TypeError)))
         /\ (forall d dc others,
                json response = Ret (PDict d) ->
                dict_get (py "candidates") d
                = Some (PList (PDict dc :: others)) ->
                dict_get (py "content") dc = None ->
                snd (call_gemini_api rt w n prompt api_key)
                = Ret (PStr (py "Error calling Gemini API: " ++
                             exn_str rt (KeyError (py "content")))))).
Proof.
  split; [reflexivity|]. split; [apply call_gemini_api_returns|]. split.
  - intros e Hpost. unfold call_gemini_api. cbn [snd]. now rewrite Hpost.
  - intros response Hpost Hstatus.
    rewrite call_gemini_api_response with (response := response) by exact Hpost.
    unfold read_response. rewrite Hstatus.
    change (200 =? 200)%Z with true. cbv beta iota.
    split; [|split].
    + intros e ->. reflexivity.
    + intros ->. reflexivity.
    + intros d dc others -> Hc Hcontent. unfold bind at 1.
      unfold py_in, py_getitem at 1 2, bind at 1 2 3 4 5. rewrite Hc.
      cbn [py_len length Nat.ltb Nat.leb py_getitem0 bind].
      unfold py_getitem at 1. rewrite Hcontent. reflexivity.
Qed.
(** *** The discovered paths *)

Lemma lstrip_suffix (s : str) : exists ws, s = ws ++ lstrip rt s.
Proof.
  induction s as [|c s [ws IH]]; cbn [lstrip].
  - now exists [].
  - destruct (isspace rt c).
    + exists (c :: ws). cbn [app]. now f_equal.
    + now exists [].
Qed.

Lemma lstrip_head (s : str) (c : char) (r : str) :
  lstrip rt s = c :: r -> isspace rt c = false.
Proof.
  induction s as [|d s IH]; cbn [lstrip]; [discriminate|].
  destruct (isspace rt d) eqn:E; [exact IH|].
  intros H. injection H as <- _. exact E.
Qed.

Lemma lstrip_fixed (c : char) (r : str) :
  isspace rt c = false -> lstrip rt (c :: r) = c :: r.
Proof. intros H. cbn [lstrip]. now rewrite H. Qed.

Lemma lstrip_idempotent (s : str) : lstrip rt (lstrip rt s) = lstrip rt s.
Proof.
  destruct (lstrip rt s) as [|c r] eqn:E; [reflexivity|].
  apply lstrip_fixed. exact (lstrip_head s c r E).
Qed.

Lemma strip_idempotent (s : str) : strip rt (strip rt s) = strip rt s.
Proof.
  unfold strip. set (a := lstrip rt s). set (b := lstrip rt (rev a)).
  assert (H1 : lstrip rt (rev b) = rev b).
  { destruct (rev b) as [|c r] eqn:Eb; [reflexivity|].
    apply lstrip_fixed.
    destruct (lstrip_suffix (rev a)) as [ws Hws]. fold b in Hws.
    apply (f_equal (@rev _)) in Hws.
    rewrite rev_involutive, rev_app_distr, Eb in Hws.
    cbn [app] in Hws. exact (lstrip_head s c _ Hws). }
  rewrite H1, rev_involutive. unfold b at 1. now rewrite lstrip_idempotent.
Qed.

Lemma in_lstrip (c : char) (s : str) : In c (lstrip rt s) -> In c s.
Proof.
  destruct (lstrip_suffix s) as [ws Hws]. intros H. rewrite Hws.
  apply in_or_app. now right.
Qed.

Lemma in_strip (c : char) (s : str) : In c (strip rt s) -> In c s.
Proof.
  unfold strip. intros H. apply in_rev in H. apply in_lstrip in H.
  apply in_rev in H. now apply in_lstrip in H.
Qed.

Lemma split_lines_no_newline (s : str) (l : str) :
  In l (split_lines s) -> ~ In NL l.
Proof.
  revert l. induction s as [|c s IH]; intros l; cbn [split_lines].
  - intros [<-|[]]. intros [].
  - destruct (N.eqb_spec c NL) as [->|Hc].
    + intros [<-|H]; [intros [] | now apply IH].
    + destruct (split_lines s) as [|l0 ls].
      * intros [<-|[]]. intros [H|[]]. now apply Hc.
      * intros [<-|H].
        -- intros [H|H]; [now apply Hc|]. apply (IH l0); [now left | exact H].
        -- apply IH. now right.
Qed.

(** X9. Every path that [get_changed_files] returns is a line of the
    diff output with its surrounding whitespace removed: it is not empty,
    holds no newline, has no whitespace left at either end, and ends in one
    of the allow-listed extensions. *)
Theorem discovered_paths_are_clean (w : World) (p : str) :
  In p (snd (get_changed_files rt w)) ->
  p <> [] /\ ~ In NL p /\ strip rt p = p /\ is_code_file p = true
  /\ exists result line,
      git_diff w = Ret result /\ returncode result = 0%Z
      /\ In line (split_lines (stdout result)) /\ p = strip rt line.
Proof.
  unfold get_changed_files.
  destruct (git_diff w) as [result|e]; [|intros []].
  destruct (Z.eqb_spec (returncode result) 0) as [Hrc|_]; [|intros []].
  cbn [snd]. rewrite code_files_loop_filter. cbn [app].
  intros Hin. apply filter_In in Hin as [Hin Hcode].
  unfold diff_paths in Hin. apply in_map_iff in Hin as (line & <- & Hline).
  apply filter_In in Hline as [Hline Hne].
  split; [|split; [|split; [|split]]].
  - intros H. rewrite H in Hne. discriminate.
  - intros H. apply in_strip in H.
    exact (split_lines_no_newline (stdout result) line Hline H).
  - apply strip_idempotent.
  - exact Hcode.
  - now exists result, line.
Qed.
(** *** Size of the prompt, reach of the keywords *)

(** X10. The prompt is the 606 characters of the template, the path and
    at most 4000 characters of content. A content of at most 4000 characters
    is embedded whole, and the marker "... (truncated if longer)" follows it
    all the same. *)
Theorem prompt_length_and_short_content (file_path content : str) :
  length (build_prompt file_path content)
  = 606 + length file_path + Nat.min 4000 (length content)
  /\ (length content <= 4000 ->
      build_prompt file_path content
      = PROMPT_HEAD ++ file_path ++ PROMPT_MID ++ content ++
        py "... (truncated if longer)" ++ skipn 25 PROMPT_TAIL).
Proof.
  split.
  - unfold build_prompt. rewrite !length_app, length_firstn.
    change (length PROMPT_HEAD) with 108.
    change (length PROMPT_MID) with 10.
    change (length PROMPT_TAIL) with 488. lia.
  - intros Hlen. unfold build_prompt. rewrite firstn_all2 by exact Hlen.
    reflexivity.
Qed.

(** X11. The keyword test looks for letters, not for words or for a
    rating: a text that holds anywhere, also inside a longer word, ASCII
    letters spelling "HIGH" or "CRITICAL" in any mix of cases gets the red
    icon and counts as high priority, whatever surrounds them. *)
Theorem keyword_inside_any_text_is_high_priority
        (file_name pre mid post : str) :
  Forall (fun c => (c < 128)%N) mid ->
  map ascii_upper mid = py "HIGH" \/ map ascii_upper mid = py "CRITICAL" ->
  severity_icon rt (pre ++ mid ++ post) = py "🔴"
  /\ is_high_priority rt (text_result file_name (pre ++ mid ++ post)) = true.
Proof.
  intros Hascii Hkw.
  assert (Hm : mentions rt (py "HIGH") (pre ++ mid ++ post) \/
               mentions rt (py "CRITICAL") (pre ++ mid ++ post)).
  { destruct Hkw as [H|H]; [left|right];
      exists (upper rt pre), (upper rt post);
      now rewrite !upper_app, (upper_ascii mid Hascii), H. }
  split.
  - now apply (proj1 (severity_icon_spec (pre ++ mid ++ post))).
  - now apply is_high_priority_spec.
Qed.
(** *** [str(n)] is the decimal numeral of [n] *)





(** *** The summary, spelled out *)




Lemma generate_overall_summary_spelled (analyses : list ReviewResult) :
  Forall is_text analyses ->
  generate_overall_summary rt analyses
  = Ret (py "## 📋 Code Review Summary" ++ [NL] ++ [NL] ++
         py "**Files Analyzed**: " ++
         str_of_int (Z.of_nat (length analyses)) ++ [NL] ++
         py "**High Priority Issues**: " ++
         str_of_int (Z.of_nat (length (filter (is_high_priority rt) analyses))) ++
         [NL] ++ [NL] ++
         py "### 🔍 Analysis Overview" ++ [NL] ++ [NL] ++
         flat_map (fun a =>
                     py "**" ++ severity_icon rt (analysis_text a) ++
                     py " " ++ file a ++ py "**" ++ [NL] ++
                     flat_map (fun line => py "- " ++ strip rt line ++ [NL])
                       (filter (fun line => nonempty (strip rt line))
                          (firstn 3 (split_lines (analysis_text a)))) ++
                     [NL])
                  analyses).
Proof.
  intros Hall. rewrite generate_overall_summary_eq by assumption.
  apply (f_equal (@Ret str)). unfold summary_header. rewrite <- !app_assoc.
  do 13 (apply (f_equal2 (@app char)); [reflexivity|]).
  apply flat_map_ext. intros a.
  unfold summary_block, icon_line. now rewrite <- !app_assoc.
Qed.

(** C6, as the code has it. For results whose analysis is a text, the
    block of a file in the summary is the icon line, then one bullet for each
    non-blank line among the first three lines of the text, stripped, then an
    empty line. The bullets are at most three and are the first of the
    non-blank lines of the text. *)
Theorem summary_block_bullets_of_first_three_lines
        (analyses : list ReviewResult) :
  Forall is_text analyses ->
  generate_overall_summary rt analyses
  = Ret (py "## 📋 Code Review Summary" ++ [NL] ++ [NL] ++
         py "**Files Analyzed**: " ++
         str_of_int (Z.of_nat (length analyses)) ++ [NL] ++
         py "**High Priority Issues**: " ++
         str_of_int (Z.of_nat (length (filter (is_high_priority rt) analyses))) ++
         [NL] ++ [NL] ++
         py "### 🔍 Analysis Overview" ++ [NL] ++ [NL] ++
         flat_map (fun a =>
                     py "**" ++ severity_icon rt (analysis_text a) ++
                     py " " ++ file a ++ py "**" ++ [NL] ++
                     flat_map (fun line => py "- " ++ strip rt line ++ [NL])
                       (filter (fun line => nonempty (strip rt line))
                          (firstn 3 (split_lines (analysis_text a)))) ++
                     [NL])
                  analyses)
  /\ (forall t,
         length (filter (fun line => nonempty (strip rt line))
                        (firstn 3 (split_lines t))) <= 3
         /\ exists later,
             filter (fun line => nonempty (strip rt line)) (split_lines t)
             = filter (fun line => nonempty (strip rt line))
                      (firstn 3 (split_lines t)) ++ later).
Proof.
  intros Hall. split.
  - now apply generate_overall_summary_spelled.
  - intros t. split.
    + etransitivity; [apply filter_length_le|].
      rewrite length_firstn. lia.
    + exists (filter (fun line => nonempty (strip rt line))
                     (skipn 3 (split_lines t))).
      rewrite <- filter_app. now rewrite firstn_skipn.
Qed.
(** *** How a run ends *)

(** X1. [main] reaches [sys.exit], always with code 1, exactly when the
    credential is absent or empty, and it has then only printed the
    complaint: no diff, no read, no POST, nothing written. The exit status of
    the process is 0 exactly when [main] returns; otherwise it is 1, after
    [sys.exit(1)] as after an uncaught exception, which happens only with the
    credential set. *)
Theorem sys_exit_iff_no_api_key (w : World) :
  (run_final (main rt w) = Exit 1 <->
   getenv_api_key w = None \/ getenv_api_key w = Some [])
  /\ (getenv_api_key w = None \/ getenv_api_key w = Some [] ->
      run_trace (main rt w)
      = [Print (py "❌ GEMINI_API_KEY environment variable not set")]
      /\ run_output (main rt w) = None)
  /\ (forall code, run_final (main rt w) = Exit code -> code = 1%Z)
  /\ (exit_status (run_final (main rt w)) = 0%Z <-> run_final (main rt w) = Done)
  /\ (exit_status (run_final (main rt w)) = 0%Z \/
      exit_status (run_final (main rt w)) = 1%Z)
  /\ (forall e,
         run_final (main rt w) = Crash e ->
         exit_status (run_final (main rt w)) = 1%Z
         /\ exists api_key, key_of w = Some api_key).
Proof.
  assert (Hnone : getenv_api_key w = None \/ getenv_api_key w = Some [] ->
                  key_of w = None).
  { unfold key_of. now intros [-> | ->]. }
  assert (Hsome : forall k, key_of w = Some k ->
                  forall code, run_final (main rt w) <> Exit code).
  { intros k Hk code.
    destruct (snd (get_changed_files rt w)) as [|f files] eqn:Hfiles.
    - rewrite (main_without_changed_files w k Hk Hfiles). cbn [run_final].
      now destruct (output_dir_exists w).
    - destruct (main_with_changed_files w k f files Hk Hfiles) as (t & _ & ->).
      now destruct (build_review rt _). }
  assert (Hrun : key_of w = None ->
                 main rt w
                 = {| run_trace :=
                        [Print (py "❌ GEMINI_API_KEY environment variable not set")];
                      run_final := Exit 1; run_output := None |}).
  { intros Hk. unfold main. now rewrite Hk. }
  assert (Hcode : forall code, run_final (main rt w) = Exit code -> code = 1%Z).
  { intros code Hexit. destruct (key_of w) as [k|] eqn:Hk.
    - now apply (Hsome k eq_refl) in Hexit.
    - rewrite (Hrun eq_refl) in Hexit. now injection Hexit. }
  split; [|split; [|split; [|split; [|split]]]].
  - split.
    + intros Hexit. destruct (key_of w) as [k|] eqn:Hk.
      * now apply (Hsome k eq_refl) in Hexit.
      * unfold key_of in Hk.
        destruct (getenv_api_key w) as [[|c k]|]; auto; discriminate.
    + intros H. now rewrite (Hrun (Hnone H)).
  - intros H. now rewrite (Hrun (Hnone H)).
  - exact Hcode.
  - destruct (run_final (main rt w)) as [|code|e] eqn:E; cbn [exit_status].
    + tauto.
    + rewrite (Hcode code eq_refl). split; [lia | discriminate].
    + split; [lia | discriminate].
  - destruct (run_final (main rt w)) as [|code|e] eqn:E; cbn [exit_status].
    + now left.
    + right. now apply Hcode.
    + now right.
  - intros e He. rewrite He. split; [reflexivity|].
    destruct (key_of w) as [k|] eqn:Hk; [now exists k|].
    rewrite (Hrun eq_refl) in He. discriminate.
Qed.

(** *** Answers whose text is not a string *)

Lemma call_gemini_api_candidate_value
      (w : World) (n : nat) (prompt api_key : str) (response : Response)
      (d : list (str * pyval)) (cand v : pyval) (others : list pyval) :
  requests_post w n (request_url api_key) prompt = Ret response ->
  status_code response = 200%Z ->
  json response = Ret (PDict d) ->
  dict_get (py "candidates") d = Some (PList (cand :: others)) ->
  candidate_has_value cand v ->
  snd (call_gemini_api rt w n prompt api_key) = Ret v.
Proof.
  intros Hpost Hstatus Hjson Hc (dc & dcontent & dpart & more & -> & H1 & H2 & H3).
  rewrite call_gemini_api_response with (response := response) by exact Hpost.
  unfold read_response. rewrite Hstatus, Hjson.
  change (200 =? 200)%Z with true. cbv beta iota. unfold bind at 1.
  unfold py_in, py_getitem, bind. rewrite Hc. simpl py_len. cbv beta iota.
  simpl Nat.ltb. cbv beta iota. simpl py_getitem0. cbv beta iota.
  rewrite H1, H2. simpl py_getitem0. cbv beta iota. now rewrite H3.
Qed.

(** X6. When the POST made for a file is answered 200 with a first
    candidate whose text, [content.parts[0].text], is not a string (a
    number, a list, null), that value becomes the analysis of the file, and
    the run, after it has read and posted for all its files, ends on the
    AttributeError of [upper]: no directory is made and no report is
    written. *)
Theorem non_text_answer_crashes_the_run
        (w : World) (api_key : str) (pre : list str) (f : str)
        (post : list str) (response : Response)
        (d : list (str * pyval)) (cand v : pyval) (others : list pyval) :
  key_of w = Some api_key ->
  snd (get_changed_files rt w) = pre ++ f :: post ->
  analysed rt w f = true ->
  requests_post w (length (filter (analysed rt w) pre))
                (request_url api_key) (prompt_for rt w f) = Ret response ->
  status_code response = 200%Z ->
  json response = Ret (PDict d) ->
  dict_get (py "candidates") d = Some (PList (cand :: others)) ->
  candidate_has_value cand v ->
  (forall s, v <> PStr s) ->
  run_final (main rt w) = Crash AttributeError
  /\ run_output (main rt w) = None
  /\ io (run_trace (main rt w))
     = RunGitDiff :: flat_map (file_io rt w api_key) (pre ++ f :: post).
Proof.
  intros Hkey Hfiles Hf Hpost Hstatus Hjson Hc Hcand Hv.
  pose proof (call_gemini_api_candidate_value _ _ _ _ _ _ _ _ _
                Hpost Hstatus Hjson Hc Hcand) as Hcall.
  assert (Hnot : ~ Forall is_text (loop_results rt w api_key 0 (pre ++ f :: post))).
  { rewrite loop_results_app. cbn [loop_results]. rewrite Hf.
    intros Hall. apply Forall_app in Hall as [_ Hall].
    apply Forall_inv in Hall. destruct Hall as [s Hs].
    unfold result_for, api_answer in Hs. cbn [analysis] in Hs.
    cbn [Nat.add] in Hs. rewrite Hcall in Hs. now apply Hv in Hs. }
  assert (Hcons : exists f0 files, pre ++ f :: post = f0 :: files).
  { destruct pre; eexists; eexists; reflexivity. }
  destruct Hcons as (f0 & files & Hcons). rewrite Hcons in *.
  destruct (main_with_changed_files w api_key f0 files Hkey Hfiles)
    as (t & Hio & ->).
  rewrite build_review_non_text by exact Hnot.
  cbn [run_final run_output run_trace]. now rewrite Hio.
Qed.
End Properties.

Lemma plain_strip_clean (p : str) :
  forallb (fun c => (32 <? c)%N && (c <? 128)%N) p = true ->
  p <> [] -> clean_path plain_runtime p.
Proof.
  intros Hall Hne. split; [exact Hne|]. split.
  - intros Hin. rewrite forallb_forall in Hall. specialize (Hall _ Hin).
    discriminate.
  - destruct p as [|c p]; [congruence|].
    unfold strip.
    assert (Hl : forall q, q <> [] ->
                 forallb (fun c => (32 <? c)%N && (c <? 128)%N) q = true ->
                 lstrip plain_runtime q = q).
    { intros [|d q] _ H; [reflexivity|]. simpl in *.
      apply andb_true_iff in H as [H _]. apply andb_true_iff in H as [H1 H2].
      unfold isspace, ascii_isspace. rewrite H2.
      apply N.ltb_lt in H1.
      replace (d <=? 13)%N with false by (symmetry; apply N.leb_gt; lia).
      replace (d <=? 32)%N with false by (symmetry; apply N.leb_gt; lia).
      now rewrite !andb_false_r. }
    rewrite (Hl (c :: p)) by (trivial; discriminate).
    rewrite Hl.
    + apply rev_involutive.
    + intros H. apply (f_equal (@rev _)) in H. rewrite rev_involutive in H.
      discriminate.
    + rewrite forallb_forall in *. intros x Hx. apply Hall.
      now apply in_rev.
Qed.

Lemma discovered_files_are_the_allowed_paths_witness :
  snd (get_changed_files plain_runtime world_two_code_files)
  = [py "src/app.ts"; py "tools/run.py"; py "src/app.ts"].
Proof.
  destruct (@discovered_files_are_the_allowed_paths plain_runtime
              world_two_code_files
              {| returncode := 0;
                 stdout := unlines [py "src/app.ts"; py "README.md";
                                    py "tools/run.py"; py "src/app.ts"];
                 stderr := [] |} eq_refl eq_refl) as [_ [H _]].
  rewrite (H [py "src/app.ts"; py "README.md"; py "tools/run.py"; py "src/app.ts"]).
  - reflexivity.
  - repeat constructor; (apply plain_strip_clean; [reflexivity | discriminate]).
  - reflexivity.
Defined.


Lemma success_returns_first_candidate_text_witness :
  snd (call_gemini_api plain_runtime (world_answering [candidate_with_text (py "X")])
         0 (py "review this") (py "secret"))
  = Ret (PStr (py "X")).
Proof.
  refine (proj1 (@success_returns_first_candidate_text plain_runtime
                   (world_answering [candidate_with_text (py "X")])
                   0 (py "review this") (py "secret") _ _
                   eq_refl eq_refl eq_refl)
                (candidate_with_text (py "X")) [] (py "X") eq_refl _).
  unfold candidate_has_text, candidate_with_text.
  do 4 eexists. repeat split; reflexivity.
Defined.


(** C6, as the specification words it, fails: the second of the first three
    lines is blank, so only two bullets are written, although the text has
    three non-blank lines. *)
Lemma first_three_nonblank_lines_counterexample :
  generate_overall_summary plain_runtime [review_with_blank_second_line]
  = Ret (summary_header 1 0
         ++ py "**🟢 a.py**" ++ [NL]
         ++ py "- ## Review" ++ [NL] ++ py "- Looks fine." ++ [NL; NL])
  /\ generate_overall_summary plain_runtime [review_with_blank_second_line]
     <> Ret (summary_header 1 0
             ++ spec_summary_block plain_runtime review_with_blank_second_line)
  /\ spec_first_three_nonblank plain_runtime
       (analysis_text review_with_blank_second_line)
     = [py "## Review"; py "Looks fine."; py "No issues."].
Proof.
  split; [reflexivity|]. split; [|reflexivity].
  intros H. vm_compute in H. discriminate H.
Qed.

Lemma no_changed_files_short_circuit_witness :
  run_trace (main plain_runtime world_no_code_file)
  = [Print (py "🤖 Starting AI Code Review with Gemini...");
     RunGitDiff;
     Print (py "ℹ️ No code files changed in this PR");
     WriteFile OUTPUT_PATH NO_FILES_DOCUMENT]
  /\ run_final (main plain_runtime world_no_code_file) = Done
  /\ run_output (main plain_runtime world_no_code_file) = Some NO_FILES_DOCUMENT.
Proof.
  destruct (@no_changed_files_short_circuit plain_runtime world_no_code_file
              (py "secret") eq_refl eq_refl) as (Htrace & _ & _ & Hout).
  split; [exact Htrace | exact (Hout eq_refl)].
Defined.

Lemma world_two_code_files_texts : answers_are_text world_two_code_files.
Proof.
  intros n url prompt response v Hpost Hread.
  cbn [requests_post world_two_code_files] in Hpost.
  injection Hpost as <-. unfold read_response in Hread.
  cbn [status_code] in Hread.
  change (500 =? 200)%Z with false in Hread. cbv iota in Hread.
  injection Hread as <-. eexists. reflexivity.
Qed.

(** C7, on the code. A run that finds no changed code file, started where
    [.github/scripts] does not exist, asks for the output file to be written
    without creating the directory first, and ends on the exception of
    [open]; nothing is written. The run that has files to report, started in
    the same place, creates the directory right before it writes. *)
Theorem no_changed_files_run_creates_no_directory :
  snd (get_changed_files plain_runtime world_no_code_file_no_dir) = []
  /\ run_trace (main plain_runtime world_no_code_file_no_dir)
     = [Print (py "🤖 Starting AI Code Review with Gemini...");
        RunGitDiff;
        Print (py "ℹ️ No code files changed in this PR");
        WriteFile OUTPUT_PATH NO_FILES_DOCUMENT]
  /\ run_final (main plain_runtime world_no_code_file_no_dir)
     = Crash (FileNotFoundError OUTPUT_PATH)
  /\ run_output (main plain_runtime world_no_code_file_no_dir) = None
  /\ output_dir_exists world_two_code_files = false
  /\ run_final (main plain_runtime world_two_code_files) = Done
  /\ exists t report,
      run_trace (main plain_runtime world_two_code_files)
      = t ++ [MkDirs OUTPUT_DIR;
              WriteFile OUTPUT_PATH report;
              Print (py "✅ AI Code Review completed!");
              Print (py "📝 Review saved to .github/scripts/review-output.md")].
Proof.
  split; [reflexivity|]. split; [reflexivity|]. split; [reflexivity|].
  split; [reflexivity|]. split; [reflexivity|].
  destruct (@main_on_changed_files plain_runtime world_two_code_files
              (py "secret") (py "src/app.ts")
              [py "tools/run.py"; py "src/app.ts"] eq_refl eq_refl)
    as [Hrun _].
  destruct Hrun as (_ & Hfinal & t & Htrace & _).
  { apply loop_results_texts. exact world_two_code_files_texts. }
  split; [exact Hfinal|]. eexists. eexists. exact Htrace.
Qed.

Lemma severity_is_always_medium_witness :
  snd (analyze_file_with_gemini plain_runtime
         (world_answering [candidate_with_text (py "CRITICAL")]) 0
         (py "a.py") (py "print(1)") (py "secret"))
  = Ret {| file := py "a.py";
           analysis := PStr (py "CRITICAL");
           severity := py "MEDIUM" |}
  /\ severity_icon plain_runtime (py "CRITICAL") = py "🔴".
Proof.
  apply (proj1 (proj2 (proj2 (@severity_is_always_medium plain_runtime)))
           (world_answering [candidate_with_text (py "CRITICAL")]) 0
           (py "a.py") (py "print(1)") (py "secret")).
  reflexivity.
Defined.

Lemma empty_read_is_skipped_witness :
  exists analyses,
    snd (analyze_loop plain_runtime world_with_empty_file (py "secret") 0 []
           [py "a.py"; py "empty.py"]) = Ret analyses
    /\ Forall (fun a => file a <> py "empty.py") analyses
    /\ posts (run_trace (main plain_runtime world_with_empty_file))
       = map (fun a => (request_url (py "secret"),
                        prompt_for plain_runtime world_with_empty_file (file a)))
             analyses
    /\ (forall report,
           run_output (main plain_runtime world_with_empty_file) = Some report ->
           report = report_of plain_runtime analyses).
Proof.
  apply (@empty_read_is_skipped plain_runtime world_with_empty_file
           (py "secret") [py "a.py"; py "empty.py"] (py "empty.py")).
  - reflexivity.
  - reflexivity.
  - right. left. reflexivity.
  - reflexivity.
  - left. reflexivity.
Defined.

Lemma diff_failure_is_reported_as_no_changes_witness :
  (exists line,
      get_changed_files plain_runtime world_git_fails
      = ([RunGitDiff; Print line], []))
  /\ io (run_trace (main plain_runtime world_git_fails))
     = [RunGitDiff; WriteFile OUTPUT_PATH NO_FILES_DOCUMENT]
  /\ (output_dir_exists world_git_fails = true ->
      run_final (main plain_runtime world_git_fails) = Done
      /\ run_output (main plain_runtime world_git_fails) = Some NO_FILES_DOCUMENT).
Proof.
  apply (@diff_failure_is_reported_as_no_changes plain_runtime world_git_fails
           (py "secret")).
  - reflexivity.
  - cbn. lia.
Defined.

Lemma run_is_one_pass_over_the_changed_files_witness :
  io (run_trace (main plain_runtime world_three_files))
  = RunGitDiff
    :: flat_map (file_io plain_runtime world_three_files (py "secret"))
         [py "gone.py"; py "empty.py"; py "a.py"]
    ++ match run_output (main plain_runtime world_three_files) with
       | Some report => [MkDirs OUTPUT_DIR; WriteFile OUTPUT_PATH report]
       | None => []
       end.
Proof.
  apply (@run_is_one_pass_over_the_changed_files plain_runtime world_three_files
           (py "secret") (py "gone.py") [py "empty.py"; py "a.py"]).
  - reflexivity.
  - reflexivity.
Defined.



Lemma run_with_nothing_to_analyse_witness :
  posts (run_trace (main plain_runtime world_all_missing)) = []
  /\ run_final (main plain_runtime world_all_missing) = Done
  /\ run_output (main plain_runtime world_all_missing)
     = Some (py "## 🤖 AI Code Review Results (Gemini)" ++ [NL; NL] ++
             py "**Analyzed 0 files**" ++ [NL; NL] ++
             py "*This review was generated by Google Gemini AI using advanced code analysis.*").
Proof.
  apply (@run_with_nothing_to_analyse plain_runtime world_all_missing
           (py "secret") (py "gone.py") []).
  - reflexivity.
  - reflexivity.
  - intros p _. reflexivity.
Defined.

Lemma call_gemini_api_turns_failures_into_text_witness :
  snd (call_gemini_api plain_runtime world_network_down 0 (py "review this")
         (py "secret"))
  = Ret (PStr (py "Error calling Gemini API: " ++ py "Connection refused")).
Proof.
  apply (proj1 (proj2 (proj2 (@call_gemini_api_turns_failures_into_text
                                plain_runtime world_network_down 0
                                (py "review this") (py "secret"))))
           (EnvError (py "Connection refused"))).
  reflexivity.
Defined.


Lemma discovered_paths_are_clean_witness :
  py "tools/run.py" <> [] /\ ~ In NL (py "tools/run.py")
  /\ strip plain_runtime (py "tools/run.py") = py "tools/run.py"
  /\ is_code_file (py "tools/run.py") = true
  /\ exists result line,
      git_diff world_two_code_files = Ret result /\ returncode result = 0%Z
      /\ In line (split_lines (stdout result))
      /\ py "tools/run.py" = strip plain_runtime line.
Proof.
  apply (@discovered_paths_are_clean plain_runtime world_two_code_files
           (py "tools/run.py")).
  vm_compute. right. left. reflexivity.
Defined.

Lemma prompt_length_and_short_content_witness :
  build_prompt (py "a.py") (py "x = 1")
  = PROMPT_HEAD ++ py "a.py" ++ PROMPT_MID ++ py "x = 1" ++
    py "... (truncated if longer)" ++ skipn 25 PROMPT_TAIL.
Proof.
  apply (proj2 (@prompt_length_and_short_content (py "a.py") (py "x = 1"))).
  vm_compute. lia.
Defined.

Lemma keyword_inside_any_text_is_high_priority_witness :
  severity_icon plain_runtime
    (py "The code is " ++ py "high" ++ py "ly readable. Severity: LOW")
  = py "🔴"
  /\ is_high_priority plain_runtime
       (text_result (py "a.py")
          (py "The code is " ++ py "high" ++ py "ly readable. Severity: LOW"))
     = true.
Proof.
  apply (@keyword_inside_any_text_is_high_priority plain_runtime (py "a.py")
           (py "The code is ") (py "high") (py "ly readable. Severity: LOW")).
  - repeat constructor.
  - left. reflexivity.
Defined.


Lemma review_with_blank_second_line_text :
  Forall is_text [review_with_blank_second_line].
Proof. repeat constructor. eexists. reflexivity. Qed.

Lemma summary_block_bullets_of_first_three_lines_witness :
  generate_overall_summary plain_runtime [review_with_blank_second_line]
  = Ret (py "## 📋 Code Review Summary" ++ [NL; NL] ++
         py "**Files Analyzed**: 1" ++ [NL] ++
         py "**High Priority Issues**: 0" ++ [NL; NL] ++
         py "### 🔍 Analysis Overview" ++ [NL; NL] ++
         py "**🟢 a.py**" ++ [NL] ++
         py "- ## Review" ++ [NL] ++ py "- Looks fine." ++ [NL; NL]).
Proof.
  rewrite (proj1 (@summary_block_bullets_of_first_three_lines plain_runtime
                    [review_with_blank_second_line]
                    review_with_blank_second_line_text)).
  vm_compute. reflexivity.
Defined.



Lemma sys_exit_iff_no_api_key_witness :
  run_trace (main plain_runtime world_without_key)
  = [Print (py "❌ GEMINI_API_KEY environment variable not set")]
  /\ run_output (main plain_runtime world_without_key) = None.
Proof.
  apply (proj1 (proj2 (@sys_exit_iff_no_api_key plain_runtime world_without_key))).
  left. reflexivity.
Defined.

Lemma non_text_answer_crashes_the_run_witness :
  run_final (main plain_runtime world_full_candidate_with_number)
  = Crash AttributeError
  /\ run_output (main plain_runtime world_full_candidate_with_number) = None
  /\ io (run_trace (main plain_runtime world_full_candidate_with_number))
     = RunGitDiff
       :: flat_map (file_io plain_runtime world_full_candidate_with_number
                      (py "secret"))
            ([] ++ py "a.py" :: []).
Proof.
  apply (@non_text_answer_crashes_the_run plain_runtime
           world_full_candidate_with_number
           (py "secret") [] (py "a.py") []
           {| status_code := 200; text := [];
              json := Ret (PDict [(py "candidates",
                                   PList [full_candidate_with_number]);
                                  (py "usageMetadata", PDict [])]) |}
           [(py "candidates", PList [full_candidate_with_number]);
            (py "usageMetadata", PDict [])]
           full_candidate_with_number (PNum (py "5")) []).
  - reflexivity.
  - reflexivity.
  - reflexivity.
  - reflexivity.
  - reflexivity.
  - reflexivity.
  - reflexivity.
  - unfold candidate_has_value, full_candidate_with_number.
    do 4 eexists. repeat split; reflexivity.
  - intros s H. discriminate H.
Defined.

(** C5, on the code. A run that finds no changed code file, started where
    [.github/scripts] does not exist, asks for the "no files changed"
    document to be written, reads no file and posts nothing, but the write
    fails on the missing directory: the run ends on the exception of [open]
    and no document is written. Started where the directory exists, the same
    run leaves exactly the document in the output file. *)
Theorem no_changed_files_document_needs_the_directory :
  snd (get_changed_files plain_runtime world_no_code_file_no_dir) = []
  /\ run_trace (main plain_runtime world_no_code_file_no_dir)
     = [Print (py "🤖 Starting AI Code Review with Gemini...");
        RunGitDiff;
        Print (py "ℹ️ No code files changed in this PR");
        WriteFile (py ".github/scripts/review-output.md")
          (py "## 🤖 AI Code Review Results" ++ [NL; NL] ++
           py "ℹ️ **No code files were changed in this pull request.**" ++
           [NL; NL] ++
           py "The AI code review found no files to analyze.")]
  /\ run_final (main plain_runtime world_no_code_file_no_dir)
     = Crash (FileNotFoundError (py ".github/scripts/review-output.md"))
  /\ run_output (main plain_runtime world_no_code_file_no_dir) = None
  /\ snd (get_changed_files plain_runtime world_no_code_file) = []
  /\ run_final (main plain_runtime world_no_code_file) = Done
  /\ run_output (main plain_runtime world_no_code_file)
     = Some (py "## 🤖 AI Code Review Results" ++ [NL; NL] ++
             py "ℹ️ **No code files were changed in this pull request.**" ++
             [NL; NL] ++
             py "The AI code review found no files to analyze.").
Proof.
  repeat split; vm_compute; reflexivity.
Qed.
